(** * parallel64: register access, port direction and DigitalInOut

    A shallow embedding of the C sources of the [parallel64] extension
    ([ports/portio.h], [ports/StandardPort.c] and the [DigitalInOut]
    type of [parallel64.digitalio]) together with the properties of the
    register/pin layer.

    Conventions:
    - C integers are [Z]; every conversion to a fixed-width type is
      written out ([uint8], [uint16], [int8]).
    - the x86 I/O port space is an explicit value threaded through the
      code; [inb]/[outb] are recorded in a chronological log, so that
      "no register write occurs" is a statement about that log.
    - Python objects reached through pointers live in heaps indexed by
      [nat]; two [DigitalInOut] objects may hold the same pin pointer. *)

From Stdlib Require Import ZArith List String Bool Lia.
Import ListNotations.

Local Open Scope Z_scope.

(** ** Fixed-width C integers *)

Module CInt.

Definition uint8 (x : Z) : Z := x mod 256.
Definition uint16 (x : Z) : Z := x mod 65536.

(** Conversion to [int8_t] (two's complement wrap). *)
Definition int8 (x : Z) : Z :=
  let u := x mod 256 in if u <? 128 then u else u - 256.

(** C's logical negation [!x] and comparison [a == b], both of type [int]. *)
Definition c_not (x : Z) : Z := if x =? 0 then 1 else 0.
Definition c_eq (a b : Z) : Z := if a =? b then 1 else 0.

(** Truth value of a C scalar. *)
Definition c_true (x : Z) : bool := negb (x =? 0).

End CInt.
Import CInt.

(** ** The I/O port space ([inb] / [outb]) *)

Module IO.

Inductive io_event : Type :=
| Inb (port value : Z)
| Outb (port value : Z).

(** [ports] is the byte currently held behind each port address.
    [latch port old written] is the byte the device behind [port] holds
    after [written] is output while it held [old]: a plain read/write
    register has [latch _ _ w = w]; a device that ignores (part of) a
    write keeps (part of) [old].  The device is fixed; only [ports] and
    the log evolve. *)
Record IOSpace : Type := mkIO {
  ports : Z -> Z;
  latch : Z -> Z -> Z -> Z;
  io_log : list io_event
}.

(** [readport(PORT)] is [inb(PORT)]: [unsigned short] port, [unsigned
    char] result. *)
Definition readport (m : IOSpace) (port : Z) : Z * IOSpace :=
  let p := uint16 port in
  let v := uint8 (ports m p) in
  (v, mkIO (ports m) (latch m) (io_log m ++ [Inb p v])).

(** [writeport(PORT, VALUE)] is [outb(VALUE, PORT)]. *)
Definition writeport (m : IOSpace) (port value : Z) : IOSpace :=
  let p := uint16 port in
  let v := uint8 value in
  mkIO (fun a => if a =? p then latch m p (ports m p) v else ports m a)
       (latch m)
       (io_log m ++ [Outb p v]).

(** A device whose registers all store what is written. *)
Definition ram_latch : Z -> Z -> Z -> Z := fun _ _ w => w.

(** The writes of a log, oldest first. *)
Fixpoint writes_of (l : list io_event) : list (Z * Z) :=
  match l with
  | [] => []
  | Inb _ _ :: l' => writes_of l'
  | Outb p v :: l' => (p, v) :: writes_of l'
  end.

End IO.
Import IO.

(** ** portio.h *)

Module Portio.

(** [SPP_DATA_ADDR], [SPP_STATUS_ADDR], [SPP_CONTROL_ADDR] (named
    [SPPDATA], [SPPSTATUS], [SPPCONTROL] in the other copy of the header
    and in StandardPort.h), [EPP_DATA_ADDR], [EPP_ADDRESS_ADDR]. *)
Definition SPP_DATA_ADDR (address : Z) : Z := address.
Definition SPP_STATUS_ADDR (address : Z) : Z := address + 1.
Definition SPP_CONTROL_ADDR (address : Z) : Z := address + 2.
Definition EPP_DATA_ADDR (address : Z) : Z := address + 3.
Definition EPP_ADDRESS_ADDR (address : Z) : Z := address + 4.

(** The bit macros, with the precedence their expansion has in C. *)
Definition P64_CHECKBITS_UINT8 (value bitmask bitindex : Z) : Z :=
  Z.land (Z.shiftl bitmask bitindex) value.
Definition P64_CHECKBIT_UINT8 (value bitindex : Z) : Z :=
  P64_CHECKBITS_UINT8 value 1 bitindex.
Definition P64_CHECKBIT_SHIFT (value bitindex : Z) : Z :=
  Z.shiftr (P64_CHECKBITS_UINT8 value 1 bitindex) bitindex.
Definition P64_SETBITS_OFF (value bitmask bitindex : Z) : Z :=
  Z.land (Z.lnot (Z.shiftl bitmask bitindex)) value.
Definition P64_SETBITS_ON (value bitmask bitindex : Z) : Z :=
  Z.lor (Z.shiftl bitmask bitindex) value.
Definition P64_SETBITS (value bitmask bitindex : Z) (setting : bool) : Z :=
  if setting then P64_SETBITS_ON value bitmask bitindex
  else P64_SETBITS_OFF value bitmask bitindex.
Definition P64_SETBIT (value bitindex : Z) (setting : bool) : Z :=
  P64_SETBITS value 1 bitindex setting.

Definition DIRECTION_BITINDEX : Z := 5.
Definition BUSY_BITINDEX : Z := 7.

Inductive port_dir_t : Type :=
| PORT_DIR_FORWARD
| PORT_DIR_REVERSE.

Definition port_dir_val (d : port_dir_t) : Z :=
  match d with
  | PORT_DIR_FORWARD => 0
  | PORT_DIR_REVERSE => 1
  end.

(** The cast [(port_dir_t)x]; every [x] cast in the sources is 0 or 1. *)
Definition port_dir_of_Z (x : Z) : port_dir_t :=
  if x =? 0 then PORT_DIR_FORWARD else PORT_DIR_REVERSE.

Definition port_dir_eqb (a b : port_dir_t) : bool :=
  port_dir_val a =? port_dir_val b.

Definition portio_get_port_direction (m : IOSpace) (spp_base_addr : Z)
  : port_dir_t * IOSpace :=
  let '(r, m1) := readport m (SPP_CONTROL_ADDR spp_base_addr) in
  let control_byte := int8 r in
  let direction_byte := uint8 (P64_CHECKBIT_SHIFT control_byte DIRECTION_BITINDEX) in
  (port_dir_of_Z direction_byte, m1).

Definition portio_set_port_direction (m : IOSpace) (spp_base_addr : Z)
                                     (direction : port_dir_t) : IOSpace :=
  let d := port_dir_val direction in
  let new_direction_byte := uint8 (P64_SETBIT d DIRECTION_BITINDEX (c_true d)) in
  writeport m (SPP_CONTROL_ADDR spp_base_addr) new_direction_byte.

Definition portio_test_bidirectionality (m : IOSpace) (spp_base_addr : Z)
  : bool * IOSpace :=
  let '(direction, m1) := portio_get_port_direction m spp_base_addr in
  let m2 := portio_set_port_direction m1 spp_base_addr PORT_DIR_REVERSE in
  let '(readback, m3) := portio_get_port_direction m2 spp_base_addr in
  let is_bidir := port_dir_eqb readback PORT_DIR_REVERSE in
  let m4 :=
    if is_bidir && port_dir_eqb direction PORT_DIR_FORWARD
    then portio_set_port_direction m3 spp_base_addr PORT_DIR_FORWARD
    else m3 in
  (is_bidir, m4).

Definition portio_reset_control_pins (m : IOSpace) (spp_base_addr : Z)
                                     (is_bidir : bool) : IOSpace :=
  let '(control_byte, m1) := readport m (SPP_CONTROL_ADDR spp_base_addr) in
  let bidir_control_byte := uint8 (P64_SETBIT 240 DIRECTION_BITINDEX is_bidir) in
  let pre_control_byte := uint8 (Z.lor bidir_control_byte control_byte) in
  let new_control_byte := uint8 (Z.lor (Z.shiftl 1 2) pre_control_byte) in
  writeport m1 (SPP_CONTROL_ADDR spp_base_addr) new_control_byte.

End Portio.
Import Portio.

(** ** StandardPort.c *)

Module StandardPort.

Record StandardPortObject : Type := mkStandardPort {
  spp_address : Z
}.

(** The [direction] setter; [value] is the integer held by the [value]
    attribute of the [parallel64.constants.Direction] member passed in
    (FORWARD = 0, REVERSE = 1). *)
Definition StandardPort_set_direction (m : IOSpace) (self : StandardPortObject)
                                      (value : Z) : Z * IOSpace :=
  let spp_base_addr := spp_address self in
  let dirvalue := uint8 value in
  let dirvalue :=
    if dirvalue =? 0
    then uint8 (Z.land (Z.lnot (Z.shiftl 1 5)) dirvalue)
    else uint8 (Z.lor (Z.shiftl 1 5) dirvalue) in
  (0, writeport m (SPP_CONTROL_ADDR spp_base_addr) dirvalue).

End StandardPort.
Import StandardPort.

(** ** The DigitalInOut type of parallel64.digitalio *)

Module DigitalInOut.

Local Open Scope string_scope.
Local Open Scope Z_scope.

(** The Python exceptions the type raises, and the error indicator set
    by [PyErr_SetString]. *)
Inductive PyExcType : Type :=
| PyExc_TypeError
| PyExc_ValueError
| PyExc_AttributeError.

Record PyErr : Type := mkErr {
  exc_type : PyExcType;
  exc_msg : string
}.

(** The Python values handed back to the caller. *)
Inductive PyObject : Type :=
| Py_None
| Py_Bool (b : bool)
| Py_Enum (module_name enum_name : string) (value : Z).

(** Modelled from the spec: [generate_enum] of helper/enumfactory.h is
    not among the sources.  It builds, by runtime lookup of the named
    enumeration on the named module, the member whose value is the third
    argument. *)
Definition generate_enum (module_name enum_name : string) (value : Z) : PyObject :=
  Py_Enum module_name enum_name value.

(** Modelled from the spec: the members of [parallel64.digitalio.Direction]
    are declared in Python code that is not among the sources.  Their
    values are fixed by the C code: [DigitalInOut_get_direction] builds
    the member from [direction == 0], so a pin recorded as
    [PORT_DIR_FORWARD] (the state in which [DigitalInOut_set_value]
    accepts a write and [DigitalInOut_get_pull] answers "Not an input")
    reads back as the member of value 1, and a pin recorded as
    [PORT_DIR_REVERSE] as the member of value 0. *)
Inductive Direction : Type :=
| INPUT
| OUTPUT.

Definition Direction_value (d : Direction) : Z :=
  match d with
  | INPUT => 0
  | OUTPUT => 1
  end.

Definition Direction_member (d : Direction) : PyObject :=
  Py_Enum "parallel64.digitalio" "Direction" (Direction_value d).

(** The cast of the [long] returned by [PyLong_AsLong] to one of the C
    enumeration types (32 bits wide). *)
Definition enum_cast (x : Z) : Z := x mod 4294967296.

(** Modelled from the spec: [PinObject] is declared in hardware/Pin.h,
    which is not among the sources.  The fields are those DigitalInOut.c
    reads and writes; [pull] and [drive_mode] hold the integer of a
    [pull_mode_t] and a [drive_mode_t] enumerator. *)
Record PinObject : Type := mkPin {
  reg_addr : Z;
  bit_index : Z;
  input_allowed : bool;
  output_allowed : bool;
  pull : Z;
  drive_mode : Z;
  direction : port_dir_t;
  propagate_dir : bool;
  in_use : bool
}.

Definition with_direction (p : PinObject) (d : port_dir_t) : PinObject :=
  mkPin (reg_addr p) (bit_index p) (input_allowed p) (output_allowed p)
        (pull p) (drive_mode p) d (propagate_dir p) (in_use p).

Definition with_in_use (p : PinObject) (b : bool) : PinObject :=
  mkPin (reg_addr p) (bit_index p) (input_allowed p) (output_allowed p)
        (pull p) (drive_mode p) (direction p) (propagate_dir p) b.

(** [DigitalInOutObject]: a pointer to the pin it is bound to. *)
Record DigitalInOutObject : Type := mkDio {
  pin : nat
}.

(** What the constructor receives as its [pin] argument. *)
Inductive PyArg : Type :=
| ArgPin (p : nat)
| ArgOther.

(** The interpreter state the functions run in. *)
Record PyState : Type := mkState {
  io : IOSpace;
  pin_heap : nat -> PinObject;
  dio_heap : nat -> DigitalInOutObject;
  pyerr : option PyErr
}.

Definition PyErr_SetString (st : PyState) (ty : PyExcType) (msg : string) : PyState :=
  mkState (io st) (pin_heap st) (dio_heap st) (Some (mkErr ty msg)).

Definition with_io (st : PyState) (m : IOSpace) : PyState :=
  mkState m (pin_heap st) (dio_heap st) (pyerr st).

Definition store_pin (st : PyState) (p : nat) (v : PinObject) : PyState :=
  mkState (io st)
          (fun q => if Nat.eqb q p then v else pin_heap st q)
          (dio_heap st) (pyerr st).

Definition store_dio (st : PyState) (o : nat) (v : DigitalInOutObject) : PyState :=
  mkState (io st) (pin_heap st)
          (fun q => if Nat.eqb q o then v else dio_heap st q)
          (pyerr st).

(** [DIGINOUT_PIN(self)] *)
Definition DIGINOUT_PIN (st : PyState) (self : nat) : PinObject :=
  pin_heap st (pin (dio_heap st self)).

Definition DigitalInOut_init (st : PyState) (self : nat) (arg : PyArg)
  : Z * PyState :=
  match arg with
  | ArgOther =>
      (-1, PyErr_SetString st PyExc_TypeError
             "`pin` must be an instance of parallel64.hardware.Pin")
  | ArgPin p =>
      let st1 := store_dio st self (mkDio p) in
      let st2 := store_pin st1 (pin (dio_heap st1 self))
                           (with_in_use (DIGINOUT_PIN st1 self) true) in
      (0, st2)
  end.

Definition DigitalInOut_get_direction (st : PyState) (self : nat)
  : option PyObject * PyState :=
  (Some (generate_enum "parallel64.digitalio" "Direction"
           (c_eq (port_dir_val (direction (DIGINOUT_PIN st self))) 0)), st).

Definition DigitalInOut_get_drivemode (st : PyState) (self : nat)
  : option PyObject * PyState :=
  if port_dir_eqb (direction (DIGINOUT_PIN st self)) PORT_DIR_REVERSE
  then (None, PyErr_SetString st PyExc_AttributeError "Not an output")
  else (Some (generate_enum "parallel64.digitalio" "DriveMode"
                (drive_mode (DIGINOUT_PIN st self))), st).

Definition DigitalInOut_get_value (st : PyState) (self : nat)
  : option PyObject * PyState :=
  let '(reg_value, m1) := readport (io st) (reg_addr (DIGINOUT_PIN st self)) in
  let bit_value := c_true (P64_CHECKBIT_UINT8 reg_value (bit_index (DIGINOUT_PIN st self))) in
  (Some (Py_Bool bit_value), with_io st m1).

(** [value] is the integer held by the [value] attribute of the
    [Direction] member assigned. *)
Definition DigitalInOut_set_direction (st : PyState) (self : nat) (value : Z)
  : Z * PyState :=
  let reg_addr := reg_addr (DIGINOUT_PIN st self) in
  let dirvalue := enum_cast value in
  let dirvalue := c_not dirvalue in
  if (dirvalue =? 0) && negb (output_allowed (DIGINOUT_PIN st self))
  then (-1, PyErr_SetString st PyExc_ValueError "The pin cannot be use as an input")
  else if (dirvalue =? 1) && negb (input_allowed (DIGINOUT_PIN st self))
  then (-1, PyErr_SetString st PyExc_ValueError "The pin cannot be use as an output")
  else
    let st1 :=
      if propagate_dir (DIGINOUT_PIN st self)
      then with_io st (portio_set_port_direction (io st) reg_addr
                         (port_dir_of_Z (c_eq dirvalue 0)))
      else st in
    (0, store_pin st1 (pin (dio_heap st1 self))
                  (with_direction (DIGINOUT_PIN st1 self) (port_dir_of_Z dirvalue))).

(** [value] is the integer held by the [value] attribute of the
    [DriveMode] member assigned. *)
Definition DigitalInOut_set_drivemode (st : PyState) (self : nat) (value : Z)
  : Z * PyState :=
  let drive_mode := drive_mode (DIGINOUT_PIN st self) in
  let dmvalue := enum_cast value in
  if negb (dmvalue =? drive_mode)
  then (-1, PyErr_SetString st PyExc_ValueError
              "Pin drive modes cannot be changed from their default")
  else (0, st).

(** [value] is the truth value ([PyObject_IsTrue]) of the object assigned. *)
Definition DigitalInOut_set_value (st : PyState) (self : nat) (value : bool)
  : Z * PyState :=
  let current_dir := direction (DIGINOUT_PIN st self) in
  if negb (port_dir_eqb current_dir PORT_DIR_FORWARD)
  then (-1, PyErr_SetString st PyExc_AttributeError "Not an output")
  else
    let pinvalue := value in
    let reg_addr := reg_addr (DIGINOUT_PIN st self) in
    let bit_index := bit_index (DIGINOUT_PIN st self) in
    let '(current_value, m1) := readport (io st) reg_addr in
    (0, with_io st (writeport m1 reg_addr (P64_SETBIT current_value bit_index pinvalue))).

(** [GPIO_switch_to_output] after its arguments are parsed: [value] is
    the truth value of the [value] argument and [drive_mode] the integer
    of the [drive_mode] argument.  The three [PyObject_SetAttrString]
    calls reach the setters above through [DigitalInOut_getsetters];
    their results are not inspected. *)
Definition GPIO_switch_to_output (st : PyState) (self : nat)
                                 (value : bool) (drive_mode : Z)
  : option PyObject * PyState :=
  let '(_, st1) := DigitalInOut_set_direction st self (Direction_value OUTPUT) in
  let '(_, st2) := DigitalInOut_set_value st1 self value in
  let '(_, st3) := DigitalInOut_set_drivemode st2 self drive_mode in
  (Some Py_None, st3).

Section WithPullNone.

(** The enumerator [PULL_NONE] of [pull_mode_t] (hardware/Pin.h, not
    among the sources). *)
Variable PULL_NONE : Z.

Definition DigitalInOut_get_pull (st : PyState) (self : nat)
  : option PyObject * PyState :=
  if port_dir_eqb (direction (DIGINOUT_PIN st self)) PORT_DIR_FORWARD
  then (None, PyErr_SetString st PyExc_AttributeError "Not an input")
  else if pull (DIGINOUT_PIN st self) =? PULL_NONE
  then (Some Py_None, st)
  else (Some (generate_enum "parallel64.digitalio" "Pull"
                (c_not (pull (DIGINOUT_PIN st self)))), st).

(** [value] is [None] for Python's [None], and otherwise the integer
    held by the [value] attribute of the [Pull] member assigned. *)
Definition DigitalInOut_set_pull (st : PyState) (self : nat) (value : option Z)
  : Z * PyState :=
  let current_dir := direction (DIGINOUT_PIN st self) in
  if negb (port_dir_eqb current_dir PORT_DIR_REVERSE)
  then (-1, PyErr_SetString st PyExc_AttributeError "Not an input")
  else
    let pull := pull (DIGINOUT_PIN st self) in
    let pullvalue :=
      match value with
      | None => PULL_NONE
      | Some v => enum_cast v
      end in
    if negb (pullvalue =? pull)
    then (-1, PyErr_SetString st PyExc_ValueError
                "Pin pull modes cannot be changed from their default")
    else (0, st).

Definition GPIO_switch_to_input (st : PyState) (self : nat) (pull : option Z)
  : option PyObject * PyState :=
  let '(_, st1) := DigitalInOut_set_direction st self (Direction_value INPUT) in
  let '(_, st2) := DigitalInOut_set_pull st1 self pull in
  (Some Py_None, st2).

End WithPullNone.

End DigitalInOut.
Import DigitalInOut.

(** ** Concrete machines and pins used to run the code *)

Module Examples.

(** LPT1 ([0x378]) behind plain read/write registers, all bytes zero. *)
Definition lpt1 : Z := 888.

Definition io_zero : IOSpace := mkIO (fun _ => 0) ram_latch [].

(** The same port space with every byte holding [c]. *)
Definition io_const (c : Z) : IOSpace := mkIO (fun _ => c) ram_latch [].

(** A port whose control register ignores writes to its direction bit
    (hardware without bidirectional support); other bits are stored. *)
Definition unidir_latch : Z -> Z -> Z -> Z :=
  fun _ old w => Z.lor (Z.land w 223) (Z.land old 32).

Definition io_unidir : IOSpace := mkIO (fun _ => 4) unidir_latch [].

(** Bit 0 of the data register: usable both ways, direction propagated. *)
Definition data_pin : PinObject :=
  mkPin 888 0 true true 0 0 PORT_DIR_REVERSE true true.

(** Bit 3 of the status register: input only. *)
Definition status_pin : PinObject :=
  mkPin 889 3 true false 0 0 PORT_DIR_REVERSE false true.

(** Object 0 is bound to pin 0; every other object still points at pin 7. *)
Definition st_with (p : PinObject) (m : IOSpace) : PyState :=
  mkState m
          (fun _ => p)
          (fun o => if Nat.eqb o 0 then mkDio 0 else mkDio 7)
          None.

(** Bit 3 of the status register with a pull-up as its fixed pull. *)
Definition pulled_pin : PinObject :=
  mkPin 889 3 true false 1 0 PORT_DIR_REVERSE false true.

(** A pin record whose bit index lies outside the register byte. *)
Definition wide_pin : PinObject :=
  mkPin 888 8 true true 0 0 PORT_DIR_FORWARD true true.

Definition st_data : PyState := st_with data_pin io_zero.
Definition st_wide : PyState := st_with wide_pin io_zero.
Definition st_pulled : PyState := st_with pulled_pin io_zero.
Definition st_status_forward : PyState :=
  st_with (with_direction status_pin PORT_DIR_FORWARD) io_zero.
Definition st_status : PyState := st_with status_pin io_zero.
Definition st_output : PyState :=
  st_with (with_direction data_pin PORT_DIR_FORWARD) (io_const 170).

End Examples.
Import Examples.

(** ** StandardPort.c: register methods, addresses, direction getter *)

Module StandardPortMethods.

Local Open Scope string_scope.
Local Open Scope Z_scope.



(** [portio_parse_write] once [PyArg_ParseTuple(args, "b", &value)] has
    stored the byte; [address] is converted to the [uint16_t] parameter. *)
Definition portio_parse_write (m : IOSpace) (address value : Z) : IOSpace :=
  let address := uint16 address in
  writeport m address value.

(** [portio_parse_read]; the result is the integer handed to
    [PyLong_FromLong]. *)
Definition portio_parse_read (m : IOSpace) (address : Z) : Z * IOSpace :=
  let address := uint16 address in
  readport m address.

Definition StandardPort_write_data_register (m : IOSpace) (self : StandardPortObject)
                                            (value : Z) : IOSpace :=
  portio_parse_write m (SPP_DATA_ADDR (spp_address self)) value.

Definition StandardPort_write_control_register (m : IOSpace) (self : StandardPortObject)
                                               (value : Z) : IOSpace :=
  portio_parse_write m (SPP_CONTROL_ADDR (spp_address self)) value.

Definition StandardPort_read_data_register (m : IOSpace) (self : StandardPortObject)
  : Z * IOSpace :=
  portio_parse_read m (SPP_DATA_ADDR (spp_address self)).

Definition StandardPort_read_status_register (m : IOSpace) (self : StandardPortObject)
  : Z * IOSpace :=
  portio_parse_read m (SPP_STATUS_ADDR (spp_address self)).

Definition StandardPort_read_control_register (m : IOSpace) (self : StandardPortObject)
  : Z * IOSpace :=
  portio_parse_read m (SPP_CONTROL_ADDR (spp_address self)).


(** [StandardPort_get_direction]: the member of
    [parallel64.constants.Direction] built from [direction_byte]. *)
Definition StandardPort_get_direction (m : IOSpace) (self : StandardPortObject)
  : PyObject * IOSpace :=
  let spp_base_addr := spp_address self in
  let '(r, m1) := readport m (SPP_CONTROL_ADDR spp_base_addr) in
  let control_byte := int8 r in
  let direction_byte := uint8 (Z.shiftr (Z.land (Z.shiftl 1 5) control_byte) 5) in
  (Py_Enum "parallel64.constants" "Direction" direction_byte, m1).

End StandardPortMethods.
Import StandardPortMethods.

(** ** portio.h: the microsecond delay *)

Module Delay.

Local Open Scope Z_scope.

(** The [struct timespec] ([tv_sec], [tv_nsec]) the Linux/BSD branch
    hands to [nanosleep]; [delay_us] is a [uint16_t]. *)
Definition linux_delay_set (delay_us : Z) : Z * Z := (0, uint16 delay_us * 1000).

(** The Linux/BSD branch; [nanosleep] is the system call. *)
Definition portio_delay_us_linux (nanosleep : Z * Z -> Z) (delay_us : Z) : bool :=
  if c_true (nanosleep (linux_delay_set delay_us)) then false else true.

(** The Windows branch computes [ticks_needed.QuadPart] by two
    assignments in a row. *)
Definition windows_ticks_needed (delay_us frequency : Z) : Z :=
  let ticks_needed := uint16 delay_us * frequency in
  let ticks_needed := Z.quot (uint16 delay_us) 1000000 in
  ticks_needed.

(** The Windows busy-wait: [counter k] is what the [k]-th call of
    [QueryPerformanceCounter] stores (call 0 sets [start_time]).  The
    result is the number of the call on which the loop breaks, if it
    does within [fuel] calls. *)
Fixpoint windows_wait (fuel : nat) (counter : nat -> Z) (k : nat)
                      (start_time ticks_needed : Z) : option nat :=
  match fuel with
  | O => None
  | S fuel' =>
      let current_time := counter k in
      if current_time - start_time >=? ticks_needed then Some k
      else windows_wait fuel' counter (S k) start_time ticks_needed
  end.

Definition portio_delay_us_windows (fuel : nat) (counter : nat -> Z)
                                   (delay_us frequency : Z) : option nat :=
  let start_time := counter O in
  let ticks_needed := windows_ticks_needed delay_us frequency in
  windows_wait fuel counter 1%nat start_time ticks_needed.

End Delay.
Import Delay.

(** ** Further machines and pins *)

Module MoreExamples.

(** Bits 0 and 4 of the LPT1 data register, both outputs, bound to
    objects 0 and 1. *)
Definition pin_d0 : PinObject :=
  mkPin 888 0 true true 0 0 PORT_DIR_FORWARD false true.
Definition pin_d4 : PinObject :=
  mkPin 888 4 true true 0 0 PORT_DIR_FORWARD false true.

Definition st_two : PyState :=
  mkState (io_const 170)
          (fun q => if Nat.eqb q 0 then pin_d0 else pin_d4)
          (fun o => if Nat.eqb o 0 then mkDio 0 else mkDio 1)
          None.

Definition lpt1_port : StandardPortObject := mkStandardPort 888.

End MoreExamples.
Import MoreExamples.

(** ** Notions used in the statements *)

(** The direction bit of a byte, as a [port_dir_t]. *)
Definition dir_of_bit (b : bool) : port_dir_t :=
  if b then PORT_DIR_REVERSE else PORT_DIR_FORWARD.

Local Open Scope string_scope.
Local Open Scope list_scope.
Local Open Scope Z_scope.

(** The port direction a successful [DigitalInOut_set_direction] hands
    to [portio_set_port_direction], and the direction it records. *)
Definition propagated_dir (d : Direction) : port_dir_t :=
  match d with
  | INPUT => PORT_DIR_FORWARD
  | OUTPUT => PORT_DIR_REVERSE
  end.

Definition recorded_dir (d : Direction) : port_dir_t :=
  match d with
  | INPUT => PORT_DIR_REVERSE
  | OUTPUT => PORT_DIR_FORWARD
  end.

Definition allowed (p : PinObject) (d : Direction) : bool :=
  match d with
  | INPUT => input_allowed p
  | OUTPUT => output_allowed p
  end.

(** * Properties *)

(** ** Bytes and bits *)

Lemma uint8_range (x : Z) : 0 <= uint8 x < 256.
Proof. unfold uint8. apply Z.mod_pos_bound. lia. Qed.

Lemma uint8_small (x : Z) : 0 <= x < 256 -> uint8 x = x.
Proof. intros H. unfold uint8. apply Z.mod_small. exact H. Qed.

Lemma uint8_idem (x : Z) : uint8 (uint8 x) = uint8 x.
Proof. apply uint8_small, uint8_range. Qed.

Lemma uint16_idem (x : Z) : uint16 (uint16 x) = uint16 x.
Proof. unfold uint16. apply Z.mod_mod. lia. Qed.

Lemma uint8_testbit_low (x j : Z) :
  0 <= j < 8 -> Z.testbit (uint8 x) j = Z.testbit x j.
Proof.
  intros H. unfold uint8. change 256 with (2 ^ 8).
  apply Z.mod_pow2_bits_low. lia.
Qed.

Lemma uint8_testbit_high (x j : Z) : 8 <= j -> Z.testbit (uint8 x) j = false.
Proof.
  intros H. unfold uint8. change 256 with (2 ^ 8).
  apply Z.mod_pow2_bits_high. lia.
Qed.

Lemma byte_testbit_high (c j : Z) : 0 <= c < 256 -> 8 <= j -> Z.testbit c j = false.
Proof.
  intros Hc Hj. rewrite <- (uint8_small c Hc). apply uint8_testbit_high. exact Hj.
Qed.

(** A boolean property checked on the 256 bytes holds of every byte. *)
Lemma forall_byte (f : Z -> bool) :
  forallb f (map Z.of_nat (seq 0 256)) = true ->
  forall c, 0 <= c < 256 -> f c = true.
Proof.
  intros H c Hc. rewrite forallb_forall in H. apply H.
  rewrite <- (Z2Nat.id c) by lia.
  apply in_map, in_seq. lia.
Qed.

Lemma one_shl_testbit (i j : Z) :
  0 <= i -> Z.testbit (Z.shiftl 1 i) j = (i =? j).
Proof.
  intros Hi. rewrite Z.shiftl_1_l. apply Z.pow2_bits_eqb. exact Hi.
Qed.

(** [P64_CHECKBIT_UINT8], read as a C truth value, is the bit. *)
Lemma checkbit_true (x i : Z) :
  0 <= i -> c_true (P64_CHECKBIT_UINT8 x i) = Z.testbit x i.
Proof.
  intros Hi. unfold c_true, P64_CHECKBIT_UINT8, P64_CHECKBITS_UINT8.
  rewrite Z.shiftl_1_l.
  assert (E : Z.land (2 ^ i) x = if Z.testbit x i then 2 ^ i else 0).
  { apply Z.bits_inj'. intros n Hn. rewrite Z.land_spec, Z.pow2_bits_eqb by exact Hi.
    destruct (Z.eqb_spec i n) as [->|Hne].
    - destruct (Z.testbit x n) eqn:E; simpl.
      + rewrite Z.pow2_bits_eqb by exact Hn. symmetry. apply Z.eqb_refl.
      + symmetry. apply Z.bits_0.
    - simpl. destruct (Z.testbit x i).
      + rewrite Z.pow2_bits_eqb by exact Hi. symmetry. apply Z.eqb_neq. exact Hne.
      + symmetry. apply Z.bits_0. }
  rewrite E. destruct (Z.testbit x i).
  - assert (0 < 2 ^ i) by (apply Z.pow_pos_nonneg; lia).
    destruct (Z.eqb_spec (2 ^ i) 0); [lia | reflexivity].
  - reflexivity.
Qed.

(** [P64_SETBIT] changes bit [i] and no other. *)
Lemma setbit_testbit (x i j : Z) (b : bool) :
  0 <= i -> 0 <= j ->
  Z.testbit (P64_SETBIT x i b) j = if i =? j then b else Z.testbit x j.
Proof.
  intros Hi Hj.
  unfold P64_SETBIT, P64_SETBITS, P64_SETBITS_ON, P64_SETBITS_OFF.
  destruct b.
  - rewrite Z.lor_spec, one_shl_testbit by exact Hi.
    destruct (i =? j); reflexivity.
  - rewrite Z.land_spec, Z.lnot_spec, one_shl_testbit by assumption.
    destruct (i =? j); reflexivity.
Qed.

(** ** The port space *)

Lemma readport_ports (m : IOSpace) (p : Z) : ports (snd (readport m p)) = ports m.
Proof. reflexivity. Qed.

Lemma readport_latch (m : IOSpace) (p : Z) : latch (snd (readport m p)) = latch m.
Proof. reflexivity. Qed.

Lemma writeport_latch (m : IOSpace) (p v : Z) : latch (writeport m p v) = latch m.
Proof. reflexivity. Qed.

Lemma writeport_ports_same (m : IOSpace) (p v : Z) :
  ports (writeport m p v) (uint16 p) = latch m (uint16 p) (ports m (uint16 p)) (uint8 v).
Proof. unfold writeport; simpl. rewrite Z.eqb_refl. reflexivity. Qed.

Lemma writeport_ports_other (m : IOSpace) (p v a : Z) :
  a <> uint16 p -> ports (writeport m p v) a = ports m a.
Proof.
  intros H. unfold writeport; simpl.
  destruct (Z.eqb_spec a (uint16 p)); [contradiction | reflexivity].
Qed.

(** ** Port direction (portio.h) *)

Lemma port_dir_eqb_eq (a b : port_dir_t) : port_dir_eqb a b = true <-> a = b.
Proof.
  destruct a, b; unfold port_dir_eqb; simpl; split; intros H;
    try reflexivity; discriminate H.
Qed.

Lemma direction_of_byte (c : Z) :
  0 <= c < 256 ->
  port_dir_of_Z (uint8 (P64_CHECKBIT_SHIFT (int8 c) DIRECTION_BITINDEX))
  = dir_of_bit (Z.testbit c 5).
Proof.
  intros Hc. apply port_dir_eqb_eq.
  revert c Hc.
  apply (forall_byte
           (fun c => port_dir_eqb
                       (port_dir_of_Z (uint8 (P64_CHECKBIT_SHIFT (int8 c) DIRECTION_BITINDEX)))
                       (dir_of_bit (Z.testbit c 5)))).
  vm_compute. reflexivity.
Qed.

(** [portio_get_port_direction] reads the control register once and
    returns bit 5 of what the device holds. *)
Lemma get_port_direction_spec (m : IOSpace) (base : Z) :
  portio_get_port_direction m base
  = (dir_of_bit (Z.testbit (ports m (uint16 (SPP_CONTROL_ADDR base))) 5),
     snd (readport m (SPP_CONTROL_ADDR base))).
Proof.
  unfold portio_get_port_direction, readport; simpl.
  rewrite direction_of_byte by apply uint8_range.
  rewrite uint8_testbit_low by lia. reflexivity.
Qed.

Lemma set_port_direction_spec (m : IOSpace) (base : Z) (d : port_dir_t) :
  portio_set_port_direction m base d
  = writeport m (SPP_CONTROL_ADDR base)
              (match d with PORT_DIR_FORWARD => 0 | PORT_DIR_REVERSE => 33 end).
Proof. destruct d; reflexivity. Qed.

(** C10. For every base address, direction and prior state of the port
    space, [portio_set_port_direction] performs one output to the
    control register (base + 2) and nothing else; the byte is [0x00] for
    FORWARD and [0x21] for REVERSE, whatever the register held, so the
    other control bits are overwritten rather than preserved; and the
    [direction] setter of StandardPort leaves the port space in the very
    same state. *)
Theorem set_port_direction_writes_fixed_byte (m : IOSpace) (base : Z) (d : port_dir_t) :
  io_log (portio_set_port_direction m base d)
  = io_log m ++ [Outb (uint16 (base + 2))
                      (match d with PORT_DIR_FORWARD => 0 | PORT_DIR_REVERSE => 33 end)]
  /\ ports (portio_set_port_direction m base d) (uint16 (base + 2))
     = latch m (uint16 (base + 2)) (ports m (uint16 (base + 2)))
             (match d with PORT_DIR_FORWARD => 0 | PORT_DIR_REVERSE => 33 end)
  /\ StandardPort_set_direction m (mkStandardPort base) (port_dir_val d)
     = (0, portio_set_port_direction m base d).
Proof.
  rewrite set_port_direction_spec.
  split; [| split].
  - destruct d; reflexivity.
  - unfold SPP_CONTROL_ADDR. rewrite writeport_ports_same. destruct d; reflexivity.
  - destruct d; reflexivity.
Qed.

(** The byte [portio_reset_control_pins] outputs, for every prior
    content [c] of the control register: the prior byte with bit 2 and
    bits 4, 6, 7 set, and bit 5 set as well when [is_bidir] holds. *)
Lemma reset_control_byte (c : Z) (is_bidir : bool) :
  0 <= c < 256 ->
  uint8 (Z.lor (Z.shiftl 1 2)
               (uint8 (Z.lor (uint8 (P64_SETBIT 240 DIRECTION_BITINDEX is_bidir)) c)))
  = Z.lor (Z.lor (if is_bidir then 240 else 208) c) 4.
Proof.
  intros Hc. apply Z.eqb_eq. revert c Hc.
  destruct is_bidir.
  - apply (forall_byte
             (fun c => uint8 (Z.lor (Z.shiftl 1 2)
                                (uint8 (Z.lor (uint8 (P64_SETBIT 240 DIRECTION_BITINDEX true)) c)))
                       =? Z.lor (Z.lor 240 c) 4)).
    vm_compute. reflexivity.
  - apply (forall_byte
             (fun c => uint8 (Z.lor (Z.shiftl 1 2)
                                (uint8 (Z.lor (uint8 (P64_SETBIT 240 DIRECTION_BITINDEX false)) c)))
                       =? Z.lor (Z.lor 208 c) 4)).
    vm_compute. reflexivity.
Qed.

Lemma reset_control_pins_spec (m : IOSpace) (base : Z) (is_bidir : bool) :
  io_log (portio_reset_control_pins m base is_bidir)
  = io_log m ++
    [Inb (uint16 (base + 2)) (uint8 (ports m (uint16 (base + 2))));
     Outb (uint16 (base + 2))
          (Z.lor (Z.lor (if is_bidir then 240 else 208)
                        (uint8 (ports m (uint16 (base + 2))))) 4)].
Proof.
  unfold portio_reset_control_pins, readport, writeport, SPP_CONTROL_ADDR.
  cbn [io_log ports latch fst snd].
  rewrite <- app_assoc. cbn [app].
  rewrite uint8_idem.
  rewrite reset_control_byte by apply uint8_range.
  reflexivity.
Qed.

(** C6. [portio_reset_control_pins] run on LPT1 with [is_bidir] false:
    when the control register holds [0x00] the byte output is [0xD4],
    when it holds [0x2B] the byte output is [0xFF].  The low nibble of
    the byte output follows the prior contents ([0x4] against [0xF]),
    and bit 5 of the second byte is set although [is_bidir] is false. *)
Theorem reset_control_pins_keeps_prior_bits :
  writes_of (io_log (portio_reset_control_pins (io_const 0) lpt1 false)) = [(890, 212)]
  /\ writes_of (io_log (portio_reset_control_pins (io_const 43) lpt1 false)) = [(890, 255)]
  /\ Z.land 212 15 <> Z.land 255 15
  /\ Z.testbit 255 DIRECTION_BITINDEX = true.
Proof.
  repeat split; try reflexivity. vm_compute. discriminate.
Qed.

Lemma dir_of_bit_eqb_reverse (b : bool) :
  port_dir_eqb (dir_of_bit b) PORT_DIR_REVERSE = b.
Proof. destruct b; reflexivity. Qed.

Lemma dir_of_bit_eqb_forward (b : bool) :
  port_dir_eqb (dir_of_bit b) PORT_DIR_FORWARD = negb b.
Proof. destruct b; reflexivity. Qed.

(** What the control register holds after the probe: [c1] is what the
    device made of the REVERSE byte, and FORWARD is written back only
    when the read-back shows REVERSE and the port started in FORWARD. *)
Lemma test_bidirectionality_ports (m : IOSpace) (base : Z) :
  let ctrl := uint16 (base + 2) in
  let c0 := ports m ctrl in
  let c1 := latch m ctrl c0 33 in
  ports (snd (portio_test_bidirectionality m base)) ctrl
  = if Z.testbit c1 5 && negb (Z.testbit c0 5) then latch m ctrl c1 0 else c1.
Proof.
  intros ctrl c0 c1.
  unfold portio_test_bidirectionality.
  rewrite (get_port_direction_spec m base).
  rewrite get_port_direction_spec.
  rewrite !set_port_direction_spec.
  unfold SPP_CONTROL_ADDR.
  rewrite dir_of_bit_eqb_reverse, dir_of_bit_eqb_forward.
  rewrite !writeport_ports_same, !readport_ports, !readport_latch.
  fold ctrl; fold c0. change (uint8 33) with 33. fold c1.
  cbn [snd].
  destruct (Z.testbit c1 5 && negb (Z.testbit c0 5)).
  - unfold ctrl at 1. rewrite writeport_ports_same.
    rewrite !readport_ports, !readport_latch, writeport_latch, readport_latch.
    fold ctrl. rewrite writeport_ports_same. rewrite !readport_ports, !readport_latch.
    reflexivity.
  - rewrite readport_ports. unfold ctrl at 1. rewrite writeport_ports_same.
    rewrite !readport_ports, !readport_latch.
    reflexivity.
Qed.

(** C2. For every starting state of the port space and every base
    address, on a device whose control register either stores the
    direction bit it is given or ignores writes to it, the direction
    read after [portio_test_bidirectionality] is FORWARD exactly when
    the direction read before the call is FORWARD. *)
Theorem test_bidirectionality_keeps_direction (m : IOSpace) (base : Z) :
  (forall old w,
      Z.testbit (latch m (uint16 (base + 2)) old w) 5 = Z.testbit w 5)
  \/ (forall old w,
         Z.testbit (latch m (uint16 (base + 2)) old w) 5 = Z.testbit old 5) ->
  fst (portio_get_port_direction (snd (portio_test_bidirectionality m base)) base)
  = PORT_DIR_FORWARD
  <-> fst (portio_get_port_direction m base) = PORT_DIR_FORWARD.
Proof.
  intros Hdev.
  rewrite !get_port_direction_spec. cbn [fst].
  unfold SPP_CONTROL_ADDR.
  rewrite test_bidirectionality_ports. cbv zeta.
  set (ctrl := uint16 (base + 2)) in *.
  set (c0 := ports m ctrl).
  destruct Hdev as [Hs | Hk].
  - (* the device stores the direction bit it is given *)
    rewrite (Hs c0 33). change (Z.testbit 33 5) with true. cbn [andb].
    destruct (Z.testbit c0 5) eqn:E0; cbn [negb].
    + rewrite (Hs c0 33). change (Z.testbit 33 5) with true.
      split; intros H; discriminate H.
    + rewrite Hs. change (Z.testbit 0 5) with false.
      split; reflexivity.
  - (* the device ignores writes to the direction bit *)
    rewrite (Hk c0 33).
    destruct (Z.testbit c0 5) eqn:E0; cbn [negb andb];
      rewrite (Hk c0 33), E0; split; intros H; solve [discriminate H | reflexivity].
Qed.

(** On a plain read/write register the probe reports support and puts
    FORWARD back. *)
Lemma test_bidirectionality_keeps_direction_witness :
  ((forall old w,
       Z.testbit (latch io_zero (uint16 (lpt1 + 2)) old w) 5 = Z.testbit w 5)
   \/ (forall old w,
          Z.testbit (latch io_zero (uint16 (lpt1 + 2)) old w) 5 = Z.testbit old 5))
  /\ (fst (portio_get_port_direction
             (snd (portio_test_bidirectionality io_zero lpt1)) lpt1)
      = PORT_DIR_FORWARD
      <-> fst (portio_get_port_direction io_zero lpt1) = PORT_DIR_FORWARD).
Proof.
  assert (H : (forall old w,
                  Z.testbit (latch io_zero (uint16 (lpt1 + 2)) old w) 5 = Z.testbit w 5)
              \/ (forall old w,
                     Z.testbit (latch io_zero (uint16 (lpt1 + 2)) old w) 5
                     = Z.testbit old 5)).
  { left. intros old w. reflexivity. }
  split.
  - exact H.
  - exact (test_bidirectionality_keeps_direction io_zero lpt1 H).
Defined.

(** The probe on a port without bidirectional support, and on a port
    left in REVERSE. *)
Example test_bidirectionality_unidir :
  fst (portio_test_bidirectionality io_unidir lpt1) = false
  /\ writes_of (io_log (snd (portio_test_bidirectionality io_unidir lpt1))) = [(890, 33)]
  /\ ports (snd (portio_test_bidirectionality io_unidir lpt1)) 890 = 1.
Proof. vm_compute. repeat split. Qed.

Example test_bidirectionality_from_reverse :
  fst (portio_test_bidirectionality (io_const 36) lpt1) = true
  /\ writes_of (io_log (snd (portio_test_bidirectionality (io_const 36) lpt1)))
     = [(890, 33)].
Proof. vm_compute. repeat split. Qed.

(** ** DigitalInOut: direction *)

Lemma DIGINOUT_PIN_store_pin (st : PyState) (self : nat) (v : PinObject) :
  DIGINOUT_PIN (store_pin st (pin (dio_heap st self)) v) self = v.
Proof.
  unfold DIGINOUT_PIN, store_pin; cbn [pin_heap dio_heap].
  rewrite Nat.eqb_refl. reflexivity.
Qed.

Lemma DIGINOUT_PIN_with_io (st : PyState) (m : IOSpace) (self : nat) :
  DIGINOUT_PIN (with_io st m) self = DIGINOUT_PIN st self.
Proof. reflexivity. Qed.

Lemma DIGINOUT_PIN_PyErr_SetString (st : PyState) ty msg (self : nat) :
  DIGINOUT_PIN (PyErr_SetString st ty msg) self = DIGINOUT_PIN st self.
Proof. reflexivity. Qed.

(** A permitted direction change: the pin records FORWARD for OUTPUT and
    REVERSE for INPUT, and with [propagate_dir] the port setter is run
    on the pin's register address with the opposite of what is
    recorded. *)
Lemma set_direction_allowed (st : PyState) (self : nat) (d : Direction) :
  allowed (DIGINOUT_PIN st self) d = true ->
  fst (DigitalInOut_set_direction st self (Direction_value d)) = 0
  /\ io (snd (DigitalInOut_set_direction st self (Direction_value d)))
     = (if propagate_dir (DIGINOUT_PIN st self)
        then portio_set_port_direction (io st) (reg_addr (DIGINOUT_PIN st self))
                                       (propagated_dir d)
        else io st)
  /\ DIGINOUT_PIN (snd (DigitalInOut_set_direction st self (Direction_value d))) self
     = with_direction (DIGINOUT_PIN st self) (recorded_dir d)
  /\ pyerr (snd (DigitalInOut_set_direction st self (Direction_value d))) = pyerr st.
Proof.
  intros Hal. unfold DigitalInOut_set_direction.
  destruct d; cbn [allowed] in Hal.
  - change (c_not (enum_cast (Direction_value INPUT))) with 1.
    rewrite Hal. cbn [Z.eqb andb negb Pos.eqb fst snd].
    change (port_dir_of_Z (c_eq 1 0)) with PORT_DIR_FORWARD.
    change (port_dir_of_Z 1) with PORT_DIR_REVERSE.
    destruct (propagate_dir (DIGINOUT_PIN st self)).
    + rewrite DIGINOUT_PIN_store_pin. repeat split.
    + rewrite DIGINOUT_PIN_store_pin. repeat split.
  - change (c_not (enum_cast (Direction_value OUTPUT))) with 0.
    rewrite Hal. cbn [Z.eqb andb negb Pos.eqb fst snd].
    change (port_dir_of_Z (c_eq 0 0)) with PORT_DIR_REVERSE.
    change (port_dir_of_Z 0) with PORT_DIR_FORWARD.
    destruct (propagate_dir (DIGINOUT_PIN st self)).
    + rewrite DIGINOUT_PIN_store_pin. repeat split.
    + rewrite DIGINOUT_PIN_store_pin. repeat split.
Qed.

(** The values of the [Direction] members, read off the C code: after
    any successful assignment of a member of value [v], the pin accepts
    [DigitalInOut_set_value] (it is an output) exactly when [v] is not
    0, and [DigitalInOut_get_direction] then returns the member of value
    1, otherwise the member of value 0. *)
Lemma direction_member_values (st : PyState) (self : nat) (v : Z) (b : bool) :
  fst (DigitalInOut_set_direction st self v) = 0 ->
  (fst (DigitalInOut_set_value (snd (DigitalInOut_set_direction st self v)) self b) = 0
   <-> enum_cast v <> 0)
  /\ fst (DigitalInOut_get_direction (snd (DigitalInOut_set_direction st self v)) self)
     = Some (Py_Enum "parallel64.digitalio" "Direction"
                     (if enum_cast v =? 0 then 0 else 1)).
Proof.
  unfold DigitalInOut_set_direction, c_not.
  destruct (Z.eqb_spec (enum_cast v) 0) as [E | E].
  - cbn [Z.eqb andb Pos.eqb].
    destruct (input_allowed (DIGINOUT_PIN st self)); cbn [negb fst snd];
      [intros _ | discriminate].
    unfold DigitalInOut_set_value, DigitalInOut_get_direction.
    rewrite DIGINOUT_PIN_store_pin. cbn [fst].
    split; [| reflexivity].
    change (negb (port_dir_eqb (direction (with_direction
              (DIGINOUT_PIN (if propagate_dir (DIGINOUT_PIN st self)
                             then with_io st (portio_set_port_direction (io st)
                                    (reg_addr (DIGINOUT_PIN st self))
                                    (port_dir_of_Z (c_eq 1 0)))
                             else st) self)
              (port_dir_of_Z 1))) PORT_DIR_FORWARD)) with true.
    cbn [fst]. split; [discriminate | intros H; contradiction].
  - cbn [Z.eqb andb].
    destruct (output_allowed (DIGINOUT_PIN st self)); cbn [negb fst snd];
      [intros _ | discriminate].
    unfold DigitalInOut_set_value, DigitalInOut_get_direction.
    rewrite DIGINOUT_PIN_store_pin. cbn [fst].
    split; [| reflexivity].
    change (negb (port_dir_eqb (direction (with_direction
              (DIGINOUT_PIN (if propagate_dir (DIGINOUT_PIN st self)
                             then with_io st (portio_set_port_direction (io st)
                                    (reg_addr (DIGINOUT_PIN st self))
                                    (port_dir_of_Z (c_eq 0 0)))
                             else st) self)
              (port_dir_of_Z 0))) PORT_DIR_FORWARD)) with false.
    unfold readport. cbn [fst]. split; [intros _; exact E | reflexivity].
Qed.

(** C1. [DigitalInOut_set_direction] on bit 0 of the LPT1 data register
    (both directions allowed, [propagate_dir] set): assigning OUTPUT
    succeeds, records FORWARD in the pin, which then accepts a value
    write, and runs the port-level setter with REVERSE (byte [0x21] to
    the control register); assigning INPUT succeeds, records REVERSE
    and runs the port-level setter with FORWARD (byte [0x00]). *)
Theorem set_direction_propagates_inverted :
  (fst (DigitalInOut_set_direction st_data 0 (Direction_value OUTPUT)) = 0
   /\ io_log (io (snd (DigitalInOut_set_direction st_data 0 (Direction_value OUTPUT))))
      = io_log (portio_set_port_direction (io st_data) 888 PORT_DIR_REVERSE)
   /\ writes_of (io_log (io (snd (DigitalInOut_set_direction st_data 0
                                    (Direction_value OUTPUT)))))
      = [(890, 33)]
   /\ direction (DIGINOUT_PIN (snd (DigitalInOut_set_direction st_data 0
                                      (Direction_value OUTPUT))) 0)
      = PORT_DIR_FORWARD
   /\ fst (DigitalInOut_set_value
             (snd (DigitalInOut_set_direction st_data 0 (Direction_value OUTPUT)))
             0 true)
      = 0)
  /\ (fst (DigitalInOut_set_direction st_data 0 (Direction_value INPUT)) = 0
      /\ io_log (io (snd (DigitalInOut_set_direction st_data 0 (Direction_value INPUT))))
         = io_log (portio_set_port_direction (io st_data) 888 PORT_DIR_FORWARD)
      /\ writes_of (io_log (io (snd (DigitalInOut_set_direction st_data 0
                                       (Direction_value INPUT)))))
         = [(890, 0)]
      /\ direction (DIGINOUT_PIN (snd (DigitalInOut_set_direction st_data 0
                                         (Direction_value INPUT))) 0)
         = PORT_DIR_REVERSE
      /\ fst (DigitalInOut_set_value
                (snd (DigitalInOut_set_direction st_data 0 (Direction_value INPUT)))
                0 true)
         = -1).
Proof. vm_compute. repeat split. Qed.

(** C3. For every DigitalInOut and direction [d]: when [d] is OUTPUT and
    the pin's [output_allowed] is false, or [d] is INPUT and its
    [input_allowed] is false, [DigitalInOut_set_direction] returns -1
    with a [ValueError] set, and the pin heap (hence the recorded
    direction), the object heap and the port space with its log are
    what they were: nothing is written to any register. *)
Theorem set_direction_not_allowed (st : PyState) (self : nat) (d : Direction) :
  (d = OUTPUT /\ output_allowed (DIGINOUT_PIN st self) = false)
  \/ (d = INPUT /\ input_allowed (DIGINOUT_PIN st self) = false) ->
  fst (DigitalInOut_set_direction st self (Direction_value d)) = -1
  /\ (exists msg,
         pyerr (snd (DigitalInOut_set_direction st self (Direction_value d)))
         = Some (mkErr PyExc_ValueError msg))
  /\ pin_heap (snd (DigitalInOut_set_direction st self (Direction_value d))) = pin_heap st
  /\ dio_heap (snd (DigitalInOut_set_direction st self (Direction_value d))) = dio_heap st
  /\ direction (DIGINOUT_PIN (snd (DigitalInOut_set_direction st self (Direction_value d)))
                             self)
     = direction (DIGINOUT_PIN st self)
  /\ io (snd (DigitalInOut_set_direction st self (Direction_value d))) = io st.
Proof.
  intros [[-> Hno] | [-> Hno]]; unfold DigitalInOut_set_direction.
  - change (c_not (enum_cast (Direction_value OUTPUT))) with 0.
    rewrite Hno. cbn [Z.eqb andb negb fst snd].
    repeat split. eexists. reflexivity.
  - change (c_not (enum_cast (Direction_value INPUT))) with 1.
    rewrite Hno. cbn [Z.eqb andb negb Pos.eqb fst snd].
    repeat split. eexists. reflexivity.
Qed.

Lemma set_direction_not_allowed_witness :
  ((OUTPUT = OUTPUT /\ output_allowed (DIGINOUT_PIN st_status 0) = false)
   \/ (OUTPUT = INPUT /\ input_allowed (DIGINOUT_PIN st_status 0) = false))
  /\ fst (DigitalInOut_set_direction st_status 0 (Direction_value OUTPUT)) = -1
  /\ io (snd (DigitalInOut_set_direction st_status 0 (Direction_value OUTPUT)))
     = io st_status.
Proof.
  assert (H : (OUTPUT = OUTPUT /\ output_allowed (DIGINOUT_PIN st_status 0) = false)
              \/ (OUTPUT = INPUT /\ input_allowed (DIGINOUT_PIN st_status 0) = false)).
  { left. split; reflexivity. }
  split; [exact H |].
  pose proof (set_direction_not_allowed st_status 0 OUTPUT H) as (H1 & _ & _ & _ & _ & H6).
  split; [exact H1 | exact H6].
Defined.

(** ** DigitalInOut: construction *)

Lemma with_in_use_id (p : PinObject) : in_use p = true -> with_in_use p true = p.
Proof. destruct p; cbn [in_use]. intros ->. reflexivity. Qed.

(** C4 (counterexample). Constructing object 1 over pin 0, which
    object 0 already holds and whose [in_use] is set: the constructor returns 0, raises nothing and
    binds object 1 to the pin. *)
Lemma second_binding_succeeds :
  pin (dio_heap st_data 0) = 0%nat
  /\ in_use (pin_heap st_data 0) = true
  /\ fst (DigitalInOut_init st_data 1 (ArgPin 0)) = 0
  /\ fst (DigitalInOut_init st_data 1 (ArgPin 0)) <> -1
  /\ pyerr (snd (DigitalInOut_init st_data 1 (ArgPin 0))) = None
  /\ pin (dio_heap (snd (DigitalInOut_init st_data 1 (ArgPin 0))) 1) = 0%nat.
Proof. vm_compute. repeat split. discriminate. Qed.

(** C4 (amended). For every pin whose [in_use] is already set,
    [DigitalInOut_init] of another object over it returns 0 without
    raising; the new object points at the pin, every other object keeps
    its pin pointer, every pin keeps all its fields ([in_use] stays
    set), and the port space is untouched. *)
Theorem init_rebinds_in_use_pin (st : PyState) (self p : nat) :
  in_use (pin_heap st p) = true ->
  fst (DigitalInOut_init st self (ArgPin p)) = 0
  /\ pyerr (snd (DigitalInOut_init st self (ArgPin p))) = pyerr st
  /\ pin (dio_heap (snd (DigitalInOut_init st self (ArgPin p))) self) = p
  /\ (forall other, other <> self ->
        dio_heap (snd (DigitalInOut_init st self (ArgPin p))) other = dio_heap st other)
  /\ (forall q, pin_heap (snd (DigitalInOut_init st self (ArgPin p))) q = pin_heap st q)
  /\ io (snd (DigitalInOut_init st self (ArgPin p))) = io st.
Proof.
  intros Hin.
  unfold DigitalInOut_init, DIGINOUT_PIN, store_pin, store_dio.
  cbn [fst snd pin_heap dio_heap pyerr io]. rewrite Nat.eqb_refl. cbn [pin].
  repeat split.
  - intros other Hne. destruct (Nat.eqb_spec other self); [contradiction | reflexivity].
  - intros q. destruct (Nat.eqb_spec q p) as [-> | Hne].
    + apply with_in_use_id. exact Hin.
    + reflexivity.
Qed.

Lemma init_rebinds_in_use_pin_witness :
  in_use (pin_heap st_data 0) = true
  /\ fst (DigitalInOut_init st_data 1 (ArgPin 0)) = 0
  /\ pin (dio_heap (snd (DigitalInOut_init st_data 1 (ArgPin 0))) 0)
     = pin (dio_heap st_data 0).
Proof.
  assert (H : in_use (pin_heap st_data 0) = true) by reflexivity.
  split; [exact H |].
  pose proof (init_rebinds_in_use_pin st_data 1 0 H) as (H1 & _ & _ & H4 & _).
  split; [exact H1 |].
  rewrite (H4 0%nat); [reflexivity | discriminate].
Defined.

(** ** DigitalInOut: value *)

Lemma get_value_spec (st : PyState) (self : nat) :
  0 <= bit_index (DIGINOUT_PIN st self) < 8 ->
  fst (DigitalInOut_get_value st self)
  = Some (Py_Bool (Z.testbit (ports (io st) (uint16 (reg_addr (DIGINOUT_PIN st self))))
                             (bit_index (DIGINOUT_PIN st self)))).
Proof.
  intros Hb. unfold DigitalInOut_get_value, readport. cbn [fst].
  rewrite checkbit_true by lia.
  rewrite uint8_testbit_low by exact Hb. reflexivity.
Qed.

(** The byte [DigitalInOut_set_value] writes back: bit [i] is the value
    assigned and every other bit is the bit read. *)
Lemma set_value_byte (c i j : Z) (v : bool) :
  0 <= c < 256 -> 0 <= i < 8 ->
  Z.testbit (uint8 (P64_SETBIT c i v)) j = if j =? i then v else Z.testbit c j.
Proof.
  intros Hc Hi.
  destruct (Z.ltb_spec j 0) as [Hneg | Hnn].
  - rewrite !Z.testbit_neg_r by exact Hneg.
    destruct (Z.eqb_spec j i); [lia | reflexivity].
  - destruct (Z.ltb_spec j 8) as [Hlow | Hhigh].
    + rewrite uint8_testbit_low by lia.
      rewrite setbit_testbit by lia.
      rewrite (Z.eqb_sym i j). reflexivity.
    + rewrite uint8_testbit_high by exact Hhigh.
      destruct (Z.eqb_spec j i); [lia |].
      symmetry. apply byte_testbit_high; assumption.
Qed.

(** C5. For every DigitalInOut whose pin is recorded FORWARD (an
    output) and whose bit index is one of 0..7, and every boolean [v]:
    [DigitalInOut_set_value] succeeds, reads the pin's register once and
    then writes it once; the byte written has bit [bit_index] equal to
    [v] and every other bit equal to the bit read; and when the register
    stores that bit as written, [DigitalInOut_get_value] run next
    returns [v]. *)
Theorem set_value_read_modify_write (st : PyState) (self : nat) (v : bool) :
  direction (DIGINOUT_PIN st self) = PORT_DIR_FORWARD ->
  0 <= bit_index (DIGINOUT_PIN st self) < 8 ->
  exists cur w,
    cur = uint8 (ports (io st) (uint16 (reg_addr (DIGINOUT_PIN st self))))
    /\ fst (DigitalInOut_set_value st self v) = 0
    /\ io_log (io (snd (DigitalInOut_set_value st self v)))
       = io_log (io st)
         ++ [Inb (uint16 (reg_addr (DIGINOUT_PIN st self))) cur;
             Outb (uint16 (reg_addr (DIGINOUT_PIN st self))) w]
    /\ (forall j, Z.testbit w j
                  = if j =? bit_index (DIGINOUT_PIN st self) then v else Z.testbit cur j)
    /\ ((forall old x,
            Z.testbit (latch (io st) (uint16 (reg_addr (DIGINOUT_PIN st self))) old x)
                      (bit_index (DIGINOUT_PIN st self))
            = Z.testbit x (bit_index (DIGINOUT_PIN st self))) ->
        fst (DigitalInOut_get_value (snd (DigitalInOut_set_value st self v)) self)
        = Some (Py_Bool v)).
Proof.
  intros Hdir Hb.
  set (p := DIGINOUT_PIN st self) in *.
  exists (uint8 (ports (io st) (uint16 (reg_addr p)))).
  exists (uint8 (P64_SETBIT (uint8 (ports (io st) (uint16 (reg_addr p)))) (bit_index p) v)).
  assert (Hw : forall j,
             Z.testbit (uint8 (P64_SETBIT (uint8 (ports (io st) (uint16 (reg_addr p))))
                                          (bit_index p) v)) j
             = if j =? bit_index p then v
               else Z.testbit (uint8 (ports (io st) (uint16 (reg_addr p)))) j).
  { intros j. apply set_value_byte; [apply uint8_range | exact Hb]. }
  unfold DigitalInOut_set_value. fold p. rewrite Hdir.
  change (negb (port_dir_eqb PORT_DIR_FORWARD PORT_DIR_FORWARD)) with false.
  unfold readport. cbn [fst snd].
  split; [reflexivity |].
  split; [reflexivity |].
  split.
  { unfold with_io, writeport. cbn [io io_log]. rewrite <- app_assoc. reflexivity. }
  split; [exact Hw |].
  intros Hlatch.
  rewrite get_value_spec; rewrite DIGINOUT_PIN_with_io; fold p; [| exact Hb].
  unfold with_io; cbn [io].
  rewrite writeport_ports_same. cbn [latch ports].
  rewrite Hlatch, Hw, Z.eqb_refl. reflexivity.
Qed.

Lemma set_value_read_modify_write_witness :
  direction (DIGINOUT_PIN st_output 0) = PORT_DIR_FORWARD
  /\ 0 <= bit_index (DIGINOUT_PIN st_output 0) < 8
  /\ fst (DigitalInOut_set_value st_output 0 true) = 0
  /\ fst (DigitalInOut_get_value (snd (DigitalInOut_set_value st_output 0 true)) 0)
     = Some (Py_Bool true).
Proof.
  assert (H1 : direction (DIGINOUT_PIN st_output 0) = PORT_DIR_FORWARD) by reflexivity.
  assert (H2 : 0 <= bit_index (DIGINOUT_PIN st_output 0) < 8)
    by (change (0 <= 0 < 8); lia).
  split; [exact H1 |]. split; [exact H2 |].
  destruct (set_value_read_modify_write st_output 0 true H1 H2)
    as (cur & w & _ & H0 & _ & _ & Hget).
  split; [exact H0 |].
  apply Hget. intros old x. reflexivity.
Defined.

Example set_value_then_get_value :
  writes_of (io_log (io (snd (DigitalInOut_set_value st_output 0 true)))) = [(888, 171)]
  /\ fst (DigitalInOut_get_value (snd (DigitalInOut_set_value st_output 0 true)) 0)
     = Some (Py_Bool true)
  /\ writes_of (io_log (io (snd (DigitalInOut_set_value
                                   (snd (DigitalInOut_set_value st_output 0 true))
                                   0 false))))
     = [(888, 171); (888, 170)].
Proof. vm_compute. repeat split. Qed.

(** With a bit index outside 0..7 the byte written back is the byte
    read, and the value read next is false. *)
Example set_value_bit_index_out_of_byte :
  writes_of (io_log (io (snd (DigitalInOut_set_value st_wide 0 true)))) = [(888, 0)]
  /\ fst (DigitalInOut_get_value (snd (DigitalInOut_set_value st_wide 0 true)) 0)
     = Some (Py_Bool false).
Proof. vm_compute. repeat split. Qed.

(** ** DigitalInOut: getter/setter pairs *)

Lemma enum_cast_small (v : Z) : 0 <= v < 4294967296 -> enum_cast v = v.
Proof. intros H. unfold enum_cast. apply Z.mod_small. exact H. Qed.

(** X24. [direction] round trip: a member assigned with success is the
    member read back. *)
Lemma direction_round_trip (st : PyState) (self : nat) (d : Direction) :
  fst (DigitalInOut_set_direction st self (Direction_value d)) = 0 ->
  fst (DigitalInOut_get_direction
         (snd (DigitalInOut_set_direction st self (Direction_value d))) self)
  = Some (Direction_member d).
Proof.
  destruct (allowed (DIGINOUT_PIN st self) d) eqn:Hal.
  - intros _. unfold DigitalInOut_get_direction. cbn [fst].
    destruct (set_direction_allowed st self d Hal) as (_ & _ & -> & _).
    destruct d; reflexivity.
  - intros H. exfalso.
    assert (Hno : (d = OUTPUT /\ output_allowed (DIGINOUT_PIN st self) = false)
                  \/ (d = INPUT /\ input_allowed (DIGINOUT_PIN st self) = false)).
    { destruct d; cbn [allowed] in Hal; [right | left]; split; auto. }
    revert H. unfold DigitalInOut_set_direction.
    destruct Hno as [[-> Hno] | [-> Hno]].
    + change (c_not (enum_cast (Direction_value OUTPUT))) with 0.
      rewrite Hno. cbn [Z.eqb andb negb fst]. discriminate.
    + change (c_not (enum_cast (Direction_value INPUT))) with 1.
      rewrite Hno. cbn [Z.eqb andb negb Pos.eqb fst]. discriminate.
Qed.

(** X25. [drive_mode] round trip, for a pin recorded FORWARD: a member
    assigned with success is the member read back. *)
Lemma drive_mode_round_trip (st : PyState) (self : nat) (v : Z) :
  0 <= v < 4294967296 ->
  direction (DIGINOUT_PIN st self) = PORT_DIR_FORWARD ->
  fst (DigitalInOut_set_drivemode st self v) = 0 ->
  fst (DigitalInOut_get_drivemode (snd (DigitalInOut_set_drivemode st self v)) self)
  = Some (Py_Enum "parallel64.digitalio" "DriveMode" v).
Proof.
  intros Hv Hdir. unfold DigitalInOut_set_drivemode.
  rewrite enum_cast_small by exact Hv.
  destruct (Z.eqb_spec v (drive_mode (DIGINOUT_PIN st self))) as [E | E];
    cbn [negb fst snd]; [intros _ | discriminate].
  unfold DigitalInOut_get_drivemode. rewrite Hdir.
  change (port_dir_eqb PORT_DIR_FORWARD PORT_DIR_REVERSE) with false.
  cbn [fst]. unfold generate_enum. rewrite <- E. reflexivity.
Qed.

(** [pull]: whenever assigning a member succeeds, the getter returns
    something else, [None] or the member of value [!pull]. *)
Lemma pull_round_trip_never (PULL_NONE : Z) (st : PyState) (self : nat) (v : Z) :
  fst (DigitalInOut_set_pull PULL_NONE st self (Some v)) = 0 ->
  fst (DigitalInOut_get_pull PULL_NONE
         (snd (DigitalInOut_set_pull PULL_NONE st self (Some v))) self)
  <> Some (Py_Enum "parallel64.digitalio" "Pull" v).
Proof.
  unfold DigitalInOut_set_pull.
  destruct (direction (DIGINOUT_PIN st self)) eqn:Hdir.
  - change (negb (port_dir_eqb PORT_DIR_FORWARD PORT_DIR_REVERSE)) with true.
    cbn [fst]. discriminate.
  - change (negb (port_dir_eqb PORT_DIR_REVERSE PORT_DIR_REVERSE)) with false.
    cbv iota.
    destruct (Z.eqb_spec (enum_cast v) (pull (DIGINOUT_PIN st self))) as [E | E];
      cbn [negb fst snd]; [intros _ | discriminate].
    unfold DigitalInOut_get_pull. rewrite Hdir.
    change (port_dir_eqb PORT_DIR_REVERSE PORT_DIR_FORWARD) with false. cbv iota.
    destruct (pull (DIGINOUT_PIN st self) =? PULL_NONE); cbn [fst]; [discriminate |].
    unfold generate_enum. intros H. injection H as H.
    unfold c_not in H.
    destruct (Z.eqb_spec (pull (DIGINOUT_PIN st self)) 0) as [E0 | E0].
    + subst v. rewrite E0 in E. discriminate E.
    + subst v. apply E0. rewrite <- E. reflexivity.
Qed.

(** X26. [pull] round trip for [None]: [None] assigned with success is
    read back as [None]. *)
Lemma pull_none_round_trip (PULL_NONE : Z) (st : PyState) (self : nat) :
  fst (DigitalInOut_set_pull PULL_NONE st self None) = 0 ->
  fst (DigitalInOut_get_pull PULL_NONE
         (snd (DigitalInOut_set_pull PULL_NONE st self None)) self)
  = Some Py_None.
Proof.
  unfold DigitalInOut_set_pull.
  destruct (direction (DIGINOUT_PIN st self)) eqn:Hdir.
  - change (negb (port_dir_eqb PORT_DIR_FORWARD PORT_DIR_REVERSE)) with true.
    cbn [fst]. discriminate.
  - change (negb (port_dir_eqb PORT_DIR_REVERSE PORT_DIR_REVERSE)) with false.
    cbv iota.
    destruct (Z.eqb_spec PULL_NONE (pull (DIGINOUT_PIN st self))) as [E | E];
      cbn [negb fst snd]; [intros _ | discriminate].
    unfold DigitalInOut_get_pull. rewrite Hdir.
    change (port_dir_eqb PORT_DIR_REVERSE PORT_DIR_FORWARD) with false. cbv iota.
    rewrite <- E, Z.eqb_refl. reflexivity.
Qed.

(** C7. On an input pin whose fixed pull is the enumerator of value 1,
    whatever the value of [PULL_NONE]: assigning the [Pull] member of
    value 1 succeeds, and the getter run next returns [None] (when
    [PULL_NONE] is 1) or the [Pull] member of value 0, never the member
    assigned. *)
Theorem pull_setter_getter_disagree (PULL_NONE : Z) :
  fst (DigitalInOut_set_pull PULL_NONE st_pulled 0 (Some 1)) = 0
  /\ fst (DigitalInOut_get_pull PULL_NONE
            (snd (DigitalInOut_set_pull PULL_NONE st_pulled 0 (Some 1))) 0)
     = (if 1 =? PULL_NONE then Some Py_None
        else Some (Py_Enum "parallel64.digitalio" "Pull" 0))
  /\ fst (DigitalInOut_get_pull PULL_NONE
            (snd (DigitalInOut_set_pull PULL_NONE st_pulled 0 (Some 1))) 0)
     <> Some (Py_Enum "parallel64.digitalio" "Pull" 1).
Proof.
  split; [reflexivity |].
  change (snd (DigitalInOut_set_pull PULL_NONE st_pulled 0 (Some 1))) with st_pulled.
  unfold DigitalInOut_get_pull.
  change (port_dir_eqb (direction (DIGINOUT_PIN st_pulled 0)) PORT_DIR_FORWARD) with false.
  change (pull (DIGINOUT_PIN st_pulled 0)) with 1.
  cbv iota.
  destruct (1 =? PULL_NONE); cbn [fst]; split; try reflexivity; discriminate.
Qed.

(** ** DigitalInOut: drive mode *)

(** [DigitalInOut_get_drivemode] raises on every pin not recorded
    FORWARD. *)
Lemma get_drivemode_not_output (st : PyState) (self : nat) :
  direction (DIGINOUT_PIN st self) <> PORT_DIR_FORWARD ->
  DigitalInOut_get_drivemode st self
  = (None, PyErr_SetString st PyExc_AttributeError "Not an output").
Proof.
  intros H. unfold DigitalInOut_get_drivemode.
  destruct (direction (DIGINOUT_PIN st self)); [contradiction | reflexivity].
Qed.

(** [DigitalInOut_set_drivemode] never looks at the direction: it
    succeeds exactly when the value assigned is the pin's drive mode,
    and otherwise raises [ValueError]. *)
Lemma set_drivemode_spec (st : PyState) (self : nat) (v : Z) :
  DigitalInOut_set_drivemode st self v
  = if enum_cast v =? drive_mode (DIGINOUT_PIN st self)
    then (0, st)
    else (-1, PyErr_SetString st PyExc_ValueError
                "Pin drive modes cannot be changed from their default").
Proof.
  unfold DigitalInOut_set_drivemode.
  destruct (enum_cast v =? drive_mode (DIGINOUT_PIN st self)); reflexivity.
Qed.

(** C9. On the input-only status pin, recorded REVERSE, with drive mode
    0: the drive-mode getter raises [AttributeError] ("Not an output"),
    while assigning the member of value 0 returns 0 and leaves the
    error indicator clear, and assigning the member of value 1 raises
    [ValueError], not [AttributeError]. *)
Theorem set_drivemode_ignores_direction :
  direction (DIGINOUT_PIN st_status 0) = PORT_DIR_REVERSE
  /\ DigitalInOut_get_drivemode st_status 0
     = (None, PyErr_SetString st_status PyExc_AttributeError "Not an output")
  /\ DigitalInOut_set_drivemode st_status 0 0 = (0, st_status)
  /\ pyerr (snd (DigitalInOut_set_drivemode st_status 0 0)) = None
  /\ DigitalInOut_set_drivemode st_status 0 1
     = (-1, PyErr_SetString st_status PyExc_ValueError
              "Pin drive modes cannot be changed from their default").
Proof. repeat split. Qed.

(** ** DigitalInOut: switch_to_output *)

(** The three setters are run in the order direction, value, drive
    mode, each on the state the previous one left. *)
Lemma switch_to_output_sequence (st : PyState) (self : nat) (value : bool) (dm : Z) :
  GPIO_switch_to_output st self value dm
  = (Some Py_None,
     snd (DigitalInOut_set_drivemode
            (snd (DigitalInOut_set_value
                    (snd (DigitalInOut_set_direction st self (Direction_value OUTPUT)))
                    self value))
            self dm)).
Proof.
  unfold GPIO_switch_to_output.
  destruct (DigitalInOut_set_direction st self (Direction_value OUTPUT)) as [r1 st1].
  cbn [snd].
  destruct (DigitalInOut_set_value st1 self value) as [r2 st2]. cbn [snd].
  destruct (DigitalInOut_set_drivemode st2 self dm) as [r3 st3]. reflexivity.
Qed.

(** C8. [GPIO_switch_to_output] on the input-only status pin (recorded
    REVERSE, drive mode 0): the direction step fails with [ValueError],
    yet the value step is still run (the pending error becomes its
    [AttributeError] "Not an output") and so is the drive-mode step
    (with drive mode 1 the pending error becomes its [ValueError]); the
    method returns [None] as on success.  On the same pin recorded
    FORWARD the value step, run after the failed direction step, writes
    the status register. *)
Theorem switch_to_output_runs_every_step :
  fst (DigitalInOut_set_direction st_status 0 (Direction_value OUTPUT)) = -1
  /\ pyerr (snd (DigitalInOut_set_direction st_status 0 (Direction_value OUTPUT)))
     = Some (mkErr PyExc_ValueError "The pin cannot be use as an input")
  /\ fst (GPIO_switch_to_output st_status 0 true 0) = Some Py_None
  /\ pyerr (snd (GPIO_switch_to_output st_status 0 true 0))
     = Some (mkErr PyExc_AttributeError "Not an output")
  /\ fst (GPIO_switch_to_output st_status 0 true 1) = Some Py_None
  /\ pyerr (snd (GPIO_switch_to_output st_status 0 true 1))
     = Some (mkErr PyExc_ValueError
               "Pin drive modes cannot be changed from their default")
  /\ fst (DigitalInOut_set_direction st_status_forward 0 (Direction_value OUTPUT)) = -1
  /\ fst (GPIO_switch_to_output st_status_forward 0 true 0) = Some Py_None
  /\ writes_of (io_log (io (snd (GPIO_switch_to_output st_status_forward 0 true 0))))
     = [(889, 8)].
Proof. vm_compute. repeat split. Qed.

(** * Further properties of the code *)

Lemma writes_of_app (a b : list io_event) :
  writes_of (a ++ b) = writes_of a ++ writes_of b.
Proof.
  induction a as [| [p v | p v] a IH]; cbn [writes_of app]; rewrite ?IH; reflexivity.
Qed.

(** ** Bit macros (portio.h) *)






(** ** Port direction and control pins (portio.h) *)

(** X3. On a control register that stores the direction bit it is
    given, [portio_get_port_direction] run after
    [portio_set_port_direction] returns the direction that was set. *)
Theorem get_after_set_port_direction (m : IOSpace) (base : Z) (d : port_dir_t) :
  (forall old w, Z.testbit (latch m (uint16 (base + 2)) old w) 5 = Z.testbit w 5) ->
  fst (portio_get_port_direction (portio_set_port_direction m base d) base) = d.
Proof.
  intros Hs.
  rewrite get_port_direction_spec, set_port_direction_spec. cbn [fst].
  unfold SPP_CONTROL_ADDR. rewrite writeport_ports_same, Hs.
  destruct d; reflexivity.
Qed.

Lemma get_after_set_port_direction_witness :
  (forall old w, Z.testbit (latch io_zero (uint16 (lpt1 + 2)) old w) 5 = Z.testbit w 5)
  /\ fst (portio_get_port_direction
            (portio_set_port_direction io_zero lpt1 PORT_DIR_REVERSE) lpt1)
     = PORT_DIR_REVERSE.
Proof.
  assert (H : forall old w,
             Z.testbit (latch io_zero (uint16 (lpt1 + 2)) old w) 5 = Z.testbit w 5)
    by (intros old w; reflexivity).
  split; [exact H | exact (get_after_set_port_direction io_zero lpt1 PORT_DIR_REVERSE H)].
Defined.

(** The trace of the probe, for every device. *)
Lemma test_bidirectionality_log (m : IOSpace) (base : Z) :
  let ctrl := uint16 (base + 2) in
  let c0 := ports m ctrl in
  let c1 := latch m ctrl c0 33 in
  fst (portio_test_bidirectionality m base) = Z.testbit c1 5
  /\ io_log (snd (portio_test_bidirectionality m base))
     = io_log m
       ++ [Inb ctrl (uint8 c0); Outb ctrl 33; Inb ctrl (uint8 c1)]
       ++ (if Z.testbit c1 5 && negb (Z.testbit c0 5) then [Outb ctrl 0] else []).
Proof.
  intros ctrl c0 c1.
  unfold portio_test_bidirectionality.
  rewrite (get_port_direction_spec m base).
  rewrite get_port_direction_spec.
  rewrite !set_port_direction_spec.
  unfold SPP_CONTROL_ADDR.
  rewrite dir_of_bit_eqb_reverse, dir_of_bit_eqb_forward.
  rewrite !writeport_ports_same, !readport_ports, !readport_latch.
  fold ctrl; fold c0. change (uint8 33) with 33. fold c1.
  cbn [fst snd]. split; [reflexivity |].
  destruct (Z.testbit c1 5 && negb (Z.testbit c0 5)).
  - unfold writeport, readport. cbn [io_log ports latch fst snd].
    fold ctrl. rewrite Z.eqb_refl. fold c0.
    change (uint8 33) with 33. fold c1. change (uint8 0) with 0.
    rewrite <- !app_assoc. reflexivity.
  - unfold writeport, readport. cbn [io_log ports latch fst snd].
    fold ctrl. rewrite Z.eqb_refl. fold c0.
    change (uint8 33) with 33. fold c1.
    rewrite <- !app_assoc. reflexivity.
Qed.

(** X4. On a control register that stores every byte as written, the
    probe [portio_test_bidirectionality] answers true and leaves the
    register holding [0x00] when the port started in FORWARD and [0x21]
    when it started in REVERSE, whatever the other control bits were;
    FORWARD is written back only in the first case. *)
Theorem test_bidirectionality_overwrites_control (m : IOSpace) (base : Z) :
  (forall old w, latch m (uint16 (base + 2)) old w = w) ->
  fst (portio_test_bidirectionality m base) = true
  /\ ports (snd (portio_test_bidirectionality m base)) (uint16 (base + 2))
     = (if Z.testbit (ports m (uint16 (base + 2))) 5 then 33 else 0)
  /\ writes_of (io_log (snd (portio_test_bidirectionality m base)))
     = writes_of (io_log m)
       ++ (if Z.testbit (ports m (uint16 (base + 2))) 5
           then [(uint16 (base + 2), 33)]
           else [(uint16 (base + 2), 33); (uint16 (base + 2), 0)]).
Proof.
  intros Hram.
  destruct (test_bidirectionality_log m base) as [Hr Hl].
  pose proof (test_bidirectionality_ports m base) as Hp.
  cbv zeta in Hr, Hl, Hp.
  rewrite Hr, Hp, Hl, !Hram.
  change (Z.testbit 33 5) with true. cbn [andb].
  split; [reflexivity |]. split.
  - destruct (Z.testbit (ports m (uint16 (base + 2))) 5); reflexivity.
  - rewrite !writes_of_app.
    destruct (Z.testbit (ports m (uint16 (base + 2))) 5); reflexivity.
Qed.

Lemma test_bidirectionality_overwrites_control_witness :
  (forall old w, latch (io_const 12) (uint16 (lpt1 + 2)) old w = w)
  /\ fst (portio_test_bidirectionality (io_const 12) lpt1) = true
  /\ ports (snd (portio_test_bidirectionality (io_const 12) lpt1)) (uint16 (lpt1 + 2))
     = (if Z.testbit (ports (io_const 12) (uint16 (lpt1 + 2))) 5 then 33 else 0).
Proof.
  assert (H : forall old w, latch (io_const 12) (uint16 (lpt1 + 2)) old w = w)
    by (intros old w; reflexivity).
  split; [exact H |].
  destruct (test_bidirectionality_overwrites_control (io_const 12) lpt1 H)
    as (H1 & H2 & _).
  split; [exact H1 | exact H2].
Defined.

(** X5. On a control register that ignores writes to its direction bit,
    the probe answers with the direction bit the register already had
    (false for a port in FORWARD), outputs [0x21] once and never writes
    FORWARD back. *)
Theorem test_bidirectionality_unsupported (m : IOSpace) (base : Z) :
  (forall old w, Z.testbit (latch m (uint16 (base + 2)) old w) 5 = Z.testbit old 5) ->
  fst (portio_test_bidirectionality m base)
  = Z.testbit (ports m (uint16 (base + 2))) 5
  /\ writes_of (io_log (snd (portio_test_bidirectionality m base)))
     = writes_of (io_log m) ++ [(uint16 (base + 2), 33)].
Proof.
  intros Hk.
  destruct (test_bidirectionality_log m base) as [Hr Hl].
  cbv zeta in Hr, Hl.
  rewrite Hr, Hl, !Hk.
  split; [reflexivity |].
  rewrite !writes_of_app.
  destruct (Z.testbit (ports m (uint16 (base + 2))) 5); cbn [andb negb writes_of app];
    reflexivity.
Qed.

Lemma test_bidirectionality_unsupported_witness :
  (forall old w,
      Z.testbit (latch io_unidir (uint16 (lpt1 + 2)) old w) 5 = Z.testbit old 5)
  /\ fst (portio_test_bidirectionality io_unidir lpt1)
     = Z.testbit (ports io_unidir (uint16 (lpt1 + 2))) 5.
Proof.
  assert (H : forall old w,
             Z.testbit (latch io_unidir (uint16 (lpt1 + 2)) old w) 5 = Z.testbit old 5).
  { intros old w. unfold io_unidir, unidir_latch. cbn [latch].
    rewrite Z.lor_spec, !Z.land_spec.
    change (Z.testbit 223 5) with false. change (Z.testbit 32 5) with true.
    rewrite Bool.andb_false_r, Bool.andb_true_r. reflexivity. }
  split; [exact H |].
  exact (proj1 (test_bidirectionality_unsupported io_unidir lpt1 H)).
Defined.

(** What the control register holds after [portio_reset_control_pins]. *)
Lemma reset_control_pins_ports (m : IOSpace) (base : Z) (is_bidir : bool) :
  ports (portio_reset_control_pins m base is_bidir) (uint16 (base + 2))
  = latch m (uint16 (base + 2)) (ports m (uint16 (base + 2)))
          (Z.lor (Z.lor (if is_bidir then 240 else 208)
                        (uint8 (ports m (uint16 (base + 2))))) 4).
Proof.
  unfold portio_reset_control_pins, readport, SPP_CONTROL_ADDR.
  rewrite writeport_ports_same. cbn [ports latch].
  rewrite uint8_idem, reset_control_byte by apply uint8_range.
  reflexivity.
Qed.

Lemma reset_byte_range (c : Z) (is_bidir : bool) :
  0 <= c < 256 -> 0 <= Z.lor (Z.lor (if is_bidir then 240 else 208) c) 4 < 256.
Proof.
  intros Hc. rewrite <- reset_control_byte by exact Hc. apply uint8_range.
Qed.

(** X6. For every prior content of the control register and either
    value of [is_bidir], [portio_reset_control_pins] reads the register
    once and writes it once, and the byte written is the byte read with
    the bits of [0xF4] (when [is_bidir]) or [0xD4] (otherwise) set in
    addition: no bit that was set is ever cleared. *)
Theorem reset_control_pins_only_sets_bits (m : IOSpace) (base : Z) (is_bidir : bool) :
  exists c w,
    c = uint8 (ports m (uint16 (base + 2)))
    /\ io_log (portio_reset_control_pins m base is_bidir)
       = io_log m ++ [Inb (uint16 (base + 2)) c; Outb (uint16 (base + 2)) w]
    /\ w = Z.lor c (if is_bidir then 244 else 212)
    /\ (forall j, Z.testbit c j = true -> Z.testbit w j = true).
Proof.
  exists (uint8 (ports m (uint16 (base + 2)))).
  exists (Z.lor (Z.lor (if is_bidir then 240 else 208)
                       (uint8 (ports m (uint16 (base + 2))))) 4).
  split; [reflexivity |].
  split; [apply reset_control_pins_spec |].
  split.
  - apply Z.bits_inj'. intros n Hn. rewrite !Z.lor_spec.
    destruct is_bidir.
    + change 244 with (Z.lor 240 4). rewrite Z.lor_spec.
      destruct (Z.testbit 240 n), (Z.testbit _ n), (Z.testbit 4 n); reflexivity.
    + change 212 with (Z.lor 208 4). rewrite Z.lor_spec.
      destruct (Z.testbit 208 n), (Z.testbit _ n), (Z.testbit 4 n); reflexivity.
  - intros j Hj. rewrite !Z.lor_spec, Hj.
    rewrite Bool.orb_true_r. reflexivity.
Qed.

(** X7. On a control register that stores every byte as written,
    running [portio_reset_control_pins] a second time with the same
    [is_bidir] leaves the register holding what the first run left. *)
Theorem reset_control_pins_idempotent (m : IOSpace) (base : Z) (is_bidir : bool) :
  (forall old w, latch m (uint16 (base + 2)) old w = w) ->
  ports (portio_reset_control_pins (portio_reset_control_pins m base is_bidir)
                                   base is_bidir)
        (uint16 (base + 2))
  = ports (portio_reset_control_pins m base is_bidir) (uint16 (base + 2)).
Proof.
  intros Hram.
  rewrite (reset_control_pins_ports (portio_reset_control_pins m base is_bidir)).
  rewrite !reset_control_pins_ports.
  assert (Hl : latch (portio_reset_control_pins m base is_bidir) = latch m)
    by reflexivity.
  rewrite Hl, !Hram.
  set (c := uint8 (ports m (uint16 (base + 2)))).
  set (k := if is_bidir then 240 else 208).
  rewrite uint8_small by (apply reset_byte_range, uint8_range).
  apply Z.bits_inj'. intros n Hn. rewrite !Z.lor_spec.
  destruct (Z.testbit k n), (Z.testbit c n), (Z.testbit 4 n); reflexivity.
Qed.

Lemma reset_control_pins_idempotent_witness :
  (forall old w, latch (io_const 43) (uint16 (lpt1 + 2)) old w = w)
  /\ ports (portio_reset_control_pins (portio_reset_control_pins (io_const 43) lpt1 false)
                                      lpt1 false)
           (uint16 (lpt1 + 2))
     = ports (portio_reset_control_pins (io_const 43) lpt1 false) (uint16 (lpt1 + 2)).
Proof.
  assert (H : forall old w, latch (io_const 43) (uint16 (lpt1 + 2)) old w = w)
    by (intros old w; reflexivity).
  split; [exact H | exact (reset_control_pins_idempotent (io_const 43) lpt1 false H)].
Defined.

(** ** StandardPort.c *)

(** The hand-written masking of [StandardPort_get_direction] on a byte. *)
Lemma standard_direction_byte (c : Z) :
  0 <= c < 256 ->
  uint8 (Z.shiftr (Z.land (Z.shiftl 1 5) (int8 c)) 5)
  = port_dir_val (dir_of_bit (Z.testbit c 5)).
Proof.
  intros Hc. apply Z.eqb_eq. revert c Hc.
  apply (forall_byte
           (fun c => uint8 (Z.shiftr (Z.land (Z.shiftl 1 5) (int8 c)) 5)
                     =? port_dir_val (dir_of_bit (Z.testbit c 5)))).
  vm_compute. reflexivity.
Qed.

(** What the [direction] getter of StandardPort returns and leaves. *)
Lemma standard_get_direction_spec (m : IOSpace) (self : StandardPortObject) :
  StandardPort_get_direction m self
  = (Py_Enum "parallel64.constants" "Direction"
             (port_dir_val
                (dir_of_bit (Z.testbit (ports m (uint16 (spp_address self + 2))) 5))),
     snd (readport m (SPP_CONTROL_ADDR (spp_address self)))).
Proof.
  unfold StandardPort_get_direction, readport.
  rewrite standard_direction_byte by apply uint8_range.
  unfold SPP_CONTROL_ADDR. rewrite uint8_testbit_low by lia. reflexivity.
Qed.

(** X8. For every state of the port space, the [direction] getter of
    StandardPort reads the control register once and returns the
    [parallel64.constants.Direction] member whose value is the direction
    [portio_get_port_direction] returns; both leave the same state. *)
Theorem StandardPort_get_direction_agrees (m : IOSpace) (self : StandardPortObject) :
  StandardPort_get_direction m self
  = (Py_Enum "parallel64.constants" "Direction"
             (port_dir_val (fst (portio_get_port_direction m (spp_address self)))),
     snd (portio_get_port_direction m (spp_address self))).
Proof.
  rewrite get_port_direction_spec. cbn [fst snd].
  apply standard_get_direction_spec.
Qed.






Lemma uint16_succ_ne (a k : Z) : 0 < k < 65536 -> uint16 (a + k) <> uint16 a.
Proof.
  unfold uint16. intros Hk H.
  assert (E : (a + k - a) mod 65536 = 0).
  { rewrite Zminus_mod, H, Z.sub_diag. reflexivity. }
  replace (a + k - a) with k in E by lia.
  rewrite Z.mod_small in E by lia. lia.
Qed.

Lemma parse_write_read_same (m : IOSpace) (a v : Z) :
  0 <= v < 256 ->
  (forall old w, latch m (uint16 a) old w = w) ->
  fst (portio_parse_read (portio_parse_write m a v) a) = v.
Proof.
  intros Hv Hram. unfold portio_parse_read, portio_parse_write, readport. cbn [fst].
  rewrite writeport_ports_same, !uint16_idem, Hram, uint8_idem.
  apply uint8_small. exact Hv.
Qed.

Lemma parse_write_read_other (m : IOSpace) (a b v : Z) :
  uint16 b <> uint16 a ->
  fst (portio_parse_read (portio_parse_write m a v) b) = fst (portio_parse_read m b).
Proof.
  intros Hne. unfold portio_parse_read, portio_parse_write, readport. cbn [fst].
  rewrite writeport_ports_other; [reflexivity |].
  rewrite !uint16_idem. exact Hne.
Qed.

(** X11. For every byte [v] and a port whose data and control registers
    store what is written: [read_data_register] after
    [write_data_register v] returns [v], [read_control_register] after
    [write_control_register v] returns [v], and a write to one register
    leaves what the other two registers read unchanged. *)
Theorem StandardPort_register_round_trip (m : IOSpace) (self : StandardPortObject)
                                         (v : Z) :
  0 <= v < 256 ->
  (forall old w, latch m (uint16 (spp_address self)) old w = w) ->
  (forall old w, latch m (uint16 (spp_address self + 2)) old w = w) ->
  fst (StandardPort_read_data_register
         (StandardPort_write_data_register m self v) self) = v
  /\ fst (StandardPort_read_control_register
            (StandardPort_write_control_register m self v) self) = v
  /\ fst (StandardPort_read_status_register
            (StandardPort_write_data_register m self v) self)
     = fst (StandardPort_read_status_register m self)
  /\ fst (StandardPort_read_control_register
            (StandardPort_write_data_register m self v) self)
     = fst (StandardPort_read_control_register m self)
  /\ fst (StandardPort_read_data_register
            (StandardPort_write_control_register m self v) self)
     = fst (StandardPort_read_data_register m self)
  /\ fst (StandardPort_read_status_register
            (StandardPort_write_control_register m self v) self)
     = fst (StandardPort_read_status_register m self).
Proof.
  intros Hv Hd Hc.
  unfold StandardPort_read_data_register, StandardPort_read_control_register,
    StandardPort_read_status_register, StandardPort_write_data_register,
    StandardPort_write_control_register,
    SPP_DATA_ADDR, SPP_STATUS_ADDR, SPP_CONTROL_ADDR.
  repeat split.
  - apply parse_write_read_same; assumption.
  - apply parse_write_read_same; assumption.
  - apply parse_write_read_other. apply uint16_succ_ne. lia.
  - apply parse_write_read_other. apply uint16_succ_ne. lia.
  - apply parse_write_read_other. apply not_eq_sym, uint16_succ_ne. lia.
  - apply parse_write_read_other.
    replace (spp_address self + 2) with (spp_address self + 1 + 1) by lia.
    apply not_eq_sym, uint16_succ_ne. lia.
Qed.

Lemma StandardPort_register_round_trip_witness :
  0 <= 90 < 256
  /\ (forall old w, latch io_zero (uint16 (spp_address lpt1_port)) old w = w)
  /\ (forall old w, latch io_zero (uint16 (spp_address lpt1_port + 2)) old w = w)
  /\ fst (StandardPort_read_data_register
            (StandardPort_write_data_register io_zero lpt1_port 90) lpt1_port) = 90.
Proof.
  assert (H0 : 0 <= 90 < 256) by lia.
  assert (H1 : forall old w, latch io_zero (uint16 (spp_address lpt1_port)) old w = w)
    by (intros old w; reflexivity).
  assert (H2 : forall old w,
             latch io_zero (uint16 (spp_address lpt1_port + 2)) old w = w)
    by (intros old w; reflexivity).
  split; [exact H0 |]. split; [exact H1 |]. split; [exact H2 |].
  exact (proj1 (StandardPort_register_round_trip io_zero lpt1_port 90 H0 H1 H2)).
Defined.


(** ** The microsecond delay (portio.h) *)

(** X13. On Linux/BSD, for every [delay_us] the [timespec] handed to
    [nanosleep] has zero seconds and between 0 and 65,535,000
    nanoseconds (a valid [tv_nsec], and no [int] overflow in
    [delay_us * 1000]), and [portio_delay_us] reports true exactly when
    [nanosleep] returns 0. *)
Theorem delay_us_linux_timespec (nanosleep : Z * Z -> Z) (delay_us : Z) :
  fst (linux_delay_set delay_us) = 0
  /\ 0 <= snd (linux_delay_set delay_us) <= 65535000
  /\ snd (linux_delay_set delay_us) < 1000000000
  /\ (portio_delay_us_linux nanosleep delay_us = true
      <-> nanosleep (linux_delay_set delay_us) = 0).
Proof.
  unfold linux_delay_set. cbn [fst snd].
  assert (H : 0 <= uint16 delay_us < 65536)
    by (unfold uint16; apply Z.mod_pos_bound; lia).
  split; [reflexivity |]. split; [lia |]. split; [lia |].
  unfold portio_delay_us_linux, linux_delay_set, c_true.
  destruct (Z.eqb_spec (nanosleep (0, uint16 delay_us * 1000)) 0) as [E | E];
    cbn [negb]; split; intros H'; try reflexivity; try assumption;
    try discriminate H'; contradiction.
Qed.

(** X14. On Windows, for every [delay_us] and counter frequency,
    [ticks_needed] ends up 0, so with a performance counter that does
    not run backwards between the first two readings the busy-wait
    breaks on its first check: no delay is waited for. *)
Theorem delay_us_windows_no_wait (fuel : nat) (counter : nat -> Z)
                                 (delay_us frequency : Z) :
  counter 0%nat <= counter 1%nat ->
  windows_ticks_needed delay_us frequency = 0
  /\ portio_delay_us_windows (S fuel) counter delay_us frequency = Some 1%nat.
Proof.
  intros Hmono.
  assert (Ht : windows_ticks_needed delay_us frequency = 0).
  { unfold windows_ticks_needed. apply Z.quot_small.
    assert (H : 0 <= uint16 delay_us < 65536)
      by (unfold uint16; apply Z.mod_pos_bound; lia).
    lia. }
  split; [exact Ht |].
  unfold portio_delay_us_windows. rewrite Ht. cbn [windows_wait].
  destruct (Z.geb_spec (counter 1%nat - counter 0%nat) 0) as [_ | Hlt];
    [reflexivity | lia].
Qed.

Lemma delay_us_windows_no_wait_witness :
  (fun k : nat => Z.of_nat k) 0%nat <= (fun k : nat => Z.of_nat k) 1%nat
  /\ portio_delay_us_windows 1 (fun k => Z.of_nat k) 50000 10000000 = Some 1%nat.
Proof.
  assert (H : (fun k : nat => Z.of_nat k) 0%nat <= (fun k : nat => Z.of_nat k) 1%nat)
    by (cbn; lia).
  split; [exact H |].
  exact (proj2 (delay_us_windows_no_wait 0 (fun k => Z.of_nat k) 50000 10000000 H)).
Defined.

(** ** DigitalInOut *)

Lemma with_direction_restore (p : PinObject) (d : port_dir_t) :
  with_direction (with_direction p d) (direction p) = p.
Proof. destruct p; reflexivity. Qed.

Lemma with_direction_same (p : PinObject) : with_direction p (direction p) = p.
Proof. destruct p; reflexivity. Qed.

(** X15. [DigitalInOut_init] over any pin returns 0 and raises nothing:
    the object points at the pin, the pin's [in_use] is set and its
    other fields are kept, every other pin and every other object is
    untouched and no port is accessed.  Over an argument that is not a
    pin it returns -1 with a [TypeError] and changes neither heap. *)
Theorem init_binds_and_marks (st : PyState) (self p : nat) :
  (exists st',
      DigitalInOut_init st self (ArgPin p) = (0, st')
      /\ pin (dio_heap st' self) = p
      /\ pin_heap st' p = with_in_use (pin_heap st p) true
      /\ (forall q, q <> p -> pin_heap st' q = pin_heap st q)
      /\ (forall o, o <> self -> dio_heap st' o = dio_heap st o)
      /\ io st' = io st
      /\ pyerr st' = pyerr st)
  /\ (exists msg,
         DigitalInOut_init st self ArgOther
         = (-1, PyErr_SetString st PyExc_TypeError msg)).
Proof.
  split.
  - eexists. split; [reflexivity |].
    unfold DIGINOUT_PIN, store_pin, store_dio.
    cbn [pin_heap dio_heap pyerr io]. rewrite !Nat.eqb_refl. cbn [pin].
    rewrite ?Nat.eqb_refl.
    repeat split.
    + intros q Hq. destruct (Nat.eqb_spec q p); [contradiction | reflexivity].
    + intros o Ho. destruct (Nat.eqb_spec o self); [contradiction | reflexivity].
  - eexists. reflexivity.
Qed.

(** X16. [DigitalInOut_get_value] never raises, whatever the direction
    of the pin: it reads the pin's register once, writes nothing,
    changes no pin and no port, and for a bit index in 0..7 returns that
    bit of the byte the register holds. *)
Theorem get_value_reads_only (st : PyState) (self : nat) :
  exists b,
    fst (DigitalInOut_get_value st self) = Some (Py_Bool b)
    /\ (0 <= bit_index (DIGINOUT_PIN st self) < 8 ->
        b = Z.testbit (ports (io st) (uint16 (reg_addr (DIGINOUT_PIN st self))))
                      (bit_index (DIGINOUT_PIN st self)))
    /\ io_log (io (snd (DigitalInOut_get_value st self)))
       = io_log (io st)
         ++ [Inb (uint16 (reg_addr (DIGINOUT_PIN st self)))
                 (uint8 (ports (io st) (uint16 (reg_addr (DIGINOUT_PIN st self)))))]
    /\ ports (io (snd (DigitalInOut_get_value st self))) = ports (io st)
    /\ pin_heap (snd (DigitalInOut_get_value st self)) = pin_heap st
    /\ pyerr (snd (DigitalInOut_get_value st self)) = pyerr st.
Proof.
  eexists. split; [reflexivity |].
  split.
  - intros Hb. rewrite checkbit_true by lia.
    apply uint8_testbit_low. exact Hb.
  - repeat split.
Qed.

(** X17. [DigitalInOut_set_value] succeeds exactly on a pin recorded
    FORWARD; on a pin recorded REVERSE it returns -1 with
    [AttributeError] and accesses no port at all, not even to read. *)
Theorem set_value_requires_output (st : PyState) (self : nat) (v : bool) :
  (fst (DigitalInOut_set_value st self v) = 0
   <-> direction (DIGINOUT_PIN st self) = PORT_DIR_FORWARD)
  /\ (direction (DIGINOUT_PIN st self) = PORT_DIR_REVERSE ->
      DigitalInOut_set_value st self v
      = (-1, PyErr_SetString st PyExc_AttributeError "Not an output")).
Proof.
  unfold DigitalInOut_set_value.
  destruct (direction (DIGINOUT_PIN st self)).
  - change (negb (port_dir_eqb PORT_DIR_FORWARD PORT_DIR_FORWARD)) with false.
    unfold readport. cbn [fst]. split.
    + split; reflexivity.
    + discriminate.
  - change (negb (port_dir_eqb PORT_DIR_REVERSE PORT_DIR_FORWARD)) with true.
    cbn [fst]. split.
    + split; discriminate.
    + reflexivity.
Qed.

(** [DigitalInOut_set_value] on a pin recorded FORWARD. *)
Lemma set_value_forward (st : PyState) (self : nat) (v : bool) :
  direction (DIGINOUT_PIN st self) = PORT_DIR_FORWARD ->
  DigitalInOut_set_value st self v
  = (0, with_io st
          (writeport (snd (readport (io st) (reg_addr (DIGINOUT_PIN st self))))
                     (reg_addr (DIGINOUT_PIN st self))
                     (P64_SETBIT
                        (uint8 (ports (io st) (uint16 (reg_addr (DIGINOUT_PIN st self)))))
                        (bit_index (DIGINOUT_PIN st self)) v))).
Proof.
  intros Hd. unfold DigitalInOut_set_value. rewrite Hd.
  change (negb (port_dir_eqb PORT_DIR_FORWARD PORT_DIR_FORWARD)) with false.
  reflexivity.
Qed.

(** X18. Two DigitalInOut objects over output pins that share one
    register (distinct bit indices in 0..7), on a register that stores
    what is written: after both values are set, each pin's bit holds
    the value given through its own object and every other bit of the
    register is as before, so the register ends up the same whichever
    object is written first. *)
Theorem set_value_two_pins (st : PyState) (a b : nat) (va vb : bool) :
  direction (DIGINOUT_PIN st a) = PORT_DIR_FORWARD ->
  direction (DIGINOUT_PIN st b) = PORT_DIR_FORWARD ->
  uint16 (reg_addr (DIGINOUT_PIN st b)) = uint16 (reg_addr (DIGINOUT_PIN st a)) ->
  0 <= bit_index (DIGINOUT_PIN st a) < 8 ->
  0 <= bit_index (DIGINOUT_PIN st b) < 8 ->
  bit_index (DIGINOUT_PIN st a) <> bit_index (DIGINOUT_PIN st b) ->
  (forall old w, latch (io st) (uint16 (reg_addr (DIGINOUT_PIN st a))) old w = w) ->
  (forall k,
      Z.testbit (ports (io (snd (DigitalInOut_set_value
                                   (snd (DigitalInOut_set_value st a va)) b vb)))
                       (uint16 (reg_addr (DIGINOUT_PIN st a)))) k
      = if k =? bit_index (DIGINOUT_PIN st a) then va
        else if k =? bit_index (DIGINOUT_PIN st b) then vb
             else Z.testbit (uint8 (ports (io st) (uint16 (reg_addr (DIGINOUT_PIN st a))))) k)
  /\ ports (io (snd (DigitalInOut_set_value (snd (DigitalInOut_set_value st a va)) b vb)))
           (uint16 (reg_addr (DIGINOUT_PIN st a)))
     = ports (io (snd (DigitalInOut_set_value (snd (DigitalInOut_set_value st b vb)) a va)))
             (uint16 (reg_addr (DIGINOUT_PIN st a))).
Proof.
  intros Hda Hdb Haddr Hia Hib Hne Hram.
  set (pa := DIGINOUT_PIN st a) in *. set (pb := DIGINOUT_PIN st b) in *.
  set (addr := uint16 (reg_addr pa)) in *.
  set (c := uint8 (ports (io st) addr)).
  assert (Hc : 0 <= c < 256) by apply uint8_range.
  (* the register after one write, through either object *)
  assert (Hone : forall s o v,
             DIGINOUT_PIN s a = pa -> DIGINOUT_PIN s b = pb ->
             latch (io s) = latch (io st) ->
             o = a \/ o = b ->
             let s' := snd (DigitalInOut_set_value s o v) in
             DIGINOUT_PIN s' a = pa /\ DIGINOUT_PIN s' b = pb
             /\ latch (io s') = latch (io st)
             /\ ports (io s') addr
                = uint8 (P64_SETBIT (uint8 (ports (io s) addr))
                                    (bit_index (DIGINOUT_PIN s o)) v)).
  { intros s o v Hpa Hpb Hl Ho s'. subst s'.
    assert (Hdo : direction (DIGINOUT_PIN s o) = PORT_DIR_FORWARD)
      by (destruct Ho; subst o; [rewrite Hpa | rewrite Hpb]; assumption).
    assert (Hao : uint16 (reg_addr (DIGINOUT_PIN s o)) = addr)
      by (destruct Ho; subst o; [rewrite Hpa | rewrite Hpb]; [reflexivity | exact Haddr]).
    rewrite set_value_forward by exact Hdo. cbn [snd].
    split; [exact Hpa |]. split; [exact Hpb |]. split; [exact Hl |].
    unfold with_io; cbn [io]. rewrite <- Hao at 1.
    rewrite writeport_ports_same. rewrite Hao.
    rewrite readport_ports, readport_latch, Hl, Hram. reflexivity. }
  assert (Hbits : forall x y vx vy k,
             0 <= x < 8 -> 0 <= y < 8 ->
             Z.testbit (uint8 (P64_SETBIT (uint8 (uint8 (P64_SETBIT c x vx))) y vy)) k
             = if k =? y then vy else if k =? x then vx else Z.testbit c k).
  { intros x y vx vy k Hx Hy.
    rewrite uint8_idem.
    rewrite set_value_byte by (try apply uint8_range; assumption).
    rewrite set_value_byte by assumption. reflexivity. }
  destruct (Hone st a va eq_refl eq_refl eq_refl (or_introl eq_refl))
    as (Ha1 & Hb1 & Hl1 & Hp1).
  destruct (Hone _ b vb Ha1 Hb1 Hl1 (or_intror eq_refl)) as (_ & _ & _ & Hp2).
  destruct (Hone st b vb eq_refl eq_refl eq_refl (or_intror eq_refl))
    as (Ha3 & Hb3 & Hl3 & Hp3).
  destruct (Hone _ a va Ha3 Hb3 Hl3 (or_introl eq_refl)) as (_ & _ & _ & Hp4).
  rewrite Hb1, Hp1 in Hp2. rewrite Ha3, Hp3 in Hp4.
  fold pa pb c in Hp2, Hp4.
  assert (Hab : forall k,
             Z.testbit (ports (io (snd (DigitalInOut_set_value
                                          (snd (DigitalInOut_set_value st a va)) b vb)))
                              addr) k
             = if k =? bit_index pa then va
               else if k =? bit_index pb then vb else Z.testbit c k).
  { intros k. rewrite Hp2, Hbits by assumption.
    destruct (Z.eqb_spec k (bit_index pb)) as [E1 | E1];
      destruct (Z.eqb_spec k (bit_index pa)) as [E2 | E2]; try reflexivity.
    exfalso. apply Hne. congruence. }
  split; [exact Hab |].
  apply Z.bits_inj'. intros k _.
  rewrite Hab, Hp4, Hbits by assumption. reflexivity.
Qed.

Lemma set_value_two_pins_witness :
  direction (DIGINOUT_PIN st_two 0) = PORT_DIR_FORWARD
  /\ ports (io (snd (DigitalInOut_set_value
                       (snd (DigitalInOut_set_value st_two 0 true)) 1 false)))
           (uint16 (reg_addr (DIGINOUT_PIN st_two 0)))
     = ports (io (snd (DigitalInOut_set_value
                         (snd (DigitalInOut_set_value st_two 1 false)) 0 true)))
             (uint16 (reg_addr (DIGINOUT_PIN st_two 0))).
Proof.
  assert (H1 : direction (DIGINOUT_PIN st_two 0) = PORT_DIR_FORWARD) by reflexivity.
  assert (H2 : direction (DIGINOUT_PIN st_two 1) = PORT_DIR_FORWARD) by reflexivity.
  assert (H3 : uint16 (reg_addr (DIGINOUT_PIN st_two 1))
               = uint16 (reg_addr (DIGINOUT_PIN st_two 0))) by reflexivity.
  assert (H4 : 0 <= bit_index (DIGINOUT_PIN st_two 0) < 8)
    by (change (0 <= 0 < 8); lia).
  assert (H5 : 0 <= bit_index (DIGINOUT_PIN st_two 1) < 8)
    by (change (0 <= 4 < 8); lia).
  assert (H6 : bit_index (DIGINOUT_PIN st_two 0) <> bit_index (DIGINOUT_PIN st_two 1))
    by (change (0 <> 4); lia).
  assert (H7 : forall old w,
             latch (io st_two) (uint16 (reg_addr (DIGINOUT_PIN st_two 0))) old w = w)
    by (intros old w; reflexivity).
  split; [exact H1 |].
  exact (proj2 (set_value_two_pins st_two 0 1 true false H1 H2 H3 H4 H5 H6 H7)).
Defined.

(** X19. [DigitalInOut_set_pull] and [DigitalInOut_set_drivemode] only
    check: whatever is assigned and whether or not they raise, no pin
    field, object or port changes and nothing is read or written; in
    particular [DigitalInOut_get_pull] returns after an assignment to
    [pull] what it returned before. *)
Theorem pull_and_drive_mode_setters_change_nothing
        (PULL_NONE : Z) (st : PyState) (self : nat) (value : option Z) (dm : Z) :
  pin_heap (snd (DigitalInOut_set_pull PULL_NONE st self value)) = pin_heap st
  /\ dio_heap (snd (DigitalInOut_set_pull PULL_NONE st self value)) = dio_heap st
  /\ io (snd (DigitalInOut_set_pull PULL_NONE st self value)) = io st
  /\ pin_heap (snd (DigitalInOut_set_drivemode st self dm)) = pin_heap st
  /\ dio_heap (snd (DigitalInOut_set_drivemode st self dm)) = dio_heap st
  /\ io (snd (DigitalInOut_set_drivemode st self dm)) = io st
  /\ fst (DigitalInOut_get_pull PULL_NONE
            (snd (DigitalInOut_set_pull PULL_NONE st self value)) self)
     = fst (DigitalInOut_get_pull PULL_NONE st self).
Proof.
  assert (Hp : snd (DigitalInOut_set_pull PULL_NONE st self value) = st
               \/ exists ty msg,
                   snd (DigitalInOut_set_pull PULL_NONE st self value)
                   = PyErr_SetString st ty msg).
  { unfold DigitalInOut_set_pull.
    destruct (negb (port_dir_eqb (direction (DIGINOUT_PIN st self)) PORT_DIR_REVERSE));
      [right; eexists; eexists; reflexivity |].
    destruct (negb _); [right; eexists; eexists; reflexivity | left; reflexivity]. }
  assert (Hd : snd (DigitalInOut_set_drivemode st self dm) = st
               \/ exists ty msg,
                   snd (DigitalInOut_set_drivemode st self dm)
                   = PyErr_SetString st ty msg).
  { rewrite set_drivemode_spec.
    destruct (_ =? _); [left; reflexivity | right; eexists; eexists; reflexivity]. }
  destruct Hp as [-> | (ty & msg & ->)], Hd as [-> | (ty' & msg' & ->)];
    repeat split;
    unfold DigitalInOut_get_pull; rewrite DIGINOUT_PIN_PyErr_SetString;
    destruct (port_dir_eqb _ _); try reflexivity;
    destruct (_ =? _); reflexivity.
Qed.

(** X20. For every DigitalInOut exactly one of the [pull] getter and
    the [drive_mode] getter raises: [DigitalInOut_get_pull] on a pin
    recorded FORWARD, [DigitalInOut_get_drivemode] on a pin recorded
    REVERSE. *)
Theorem pull_and_drive_mode_getters_exclusive (PULL_NONE : Z) (st : PyState) (self : nat) :
  (fst (DigitalInOut_get_pull PULL_NONE st self) = None
   <-> direction (DIGINOUT_PIN st self) = PORT_DIR_FORWARD)
  /\ (fst (DigitalInOut_get_drivemode st self) = None
      <-> direction (DIGINOUT_PIN st self) = PORT_DIR_REVERSE)
  /\ (fst (DigitalInOut_get_pull PULL_NONE st self) = None
      <-> fst (DigitalInOut_get_drivemode st self) <> None).
Proof.
  unfold DigitalInOut_get_pull, DigitalInOut_get_drivemode.
  destruct (direction (DIGINOUT_PIN st self)).
  - change (port_dir_eqb PORT_DIR_FORWARD PORT_DIR_FORWARD) with true.
    change (port_dir_eqb PORT_DIR_FORWARD PORT_DIR_REVERSE) with false.
    cbn [fst]. repeat split; intros; try reflexivity; try discriminate.
  - change (port_dir_eqb PORT_DIR_REVERSE PORT_DIR_FORWARD) with false.
    change (port_dir_eqb PORT_DIR_REVERSE PORT_DIR_REVERSE) with true.
    destruct (pull (DIGINOUT_PIN st self) =? PULL_NONE); cbn [fst];
      repeat split; intros H; try reflexivity; try discriminate H;
      exfalso; apply H; reflexivity.
Qed.

(** X21. [GPIO_switch_to_output] on a pin that may be an output, with
    the pin's own drive mode, a bit index in 0..7 and a pin register
    that stores the bit written: it returns [None] and raises nothing,
    the pin is recorded FORWARD, the only writes are the optional
    propagation byte [0x21] to the register two above the pin's and then
    the pin's register with the bit set to [value], and
    [DigitalInOut_get_value] run next returns [value]. *)
Theorem switch_to_output_success (st : PyState) (self : nat) (value : bool) (dm : Z) :
  output_allowed (DIGINOUT_PIN st self) = true ->
  enum_cast dm = drive_mode (DIGINOUT_PIN st self) ->
  0 <= bit_index (DIGINOUT_PIN st self) < 8 ->
  (forall old w,
      Z.testbit (latch (io st) (uint16 (reg_addr (DIGINOUT_PIN st self))) old w)
                (bit_index (DIGINOUT_PIN st self))
      = Z.testbit w (bit_index (DIGINOUT_PIN st self))) ->
  exists st',
    GPIO_switch_to_output st self value dm = (Some Py_None, st')
    /\ pyerr st' = pyerr st
    /\ direction (DIGINOUT_PIN st' self) = PORT_DIR_FORWARD
    /\ writes_of (io_log (io st'))
       = writes_of (io_log (io st))
         ++ (if propagate_dir (DIGINOUT_PIN st self)
             then [(uint16 (reg_addr (DIGINOUT_PIN st self) + 2), 33)] else [])
         ++ [(uint16 (reg_addr (DIGINOUT_PIN st self)),
              uint8 (P64_SETBIT
                       (uint8 (ports (io st) (uint16 (reg_addr (DIGINOUT_PIN st self)))))
                       (bit_index (DIGINOUT_PIN st self)) value))]
    /\ fst (DigitalInOut_get_value st' self) = Some (Py_Bool value).
Proof.
  intros Hal Hdm Hb Hlatch.
  set (p := DIGINOUT_PIN st self) in *.
  rewrite switch_to_output_sequence.
  destruct (set_direction_allowed st self OUTPUT Hal) as (_ & Hio & Hpin & Herr).
  fold p in Hio, Hpin. cbn [propagated_dir recorded_dir] in Hio, Hpin.
  set (st1 := snd (DigitalInOut_set_direction st self (Direction_value OUTPUT))) in *.
  assert (Hd1 : direction (DIGINOUT_PIN st1 self) = PORT_DIR_FORWARD)
    by (rewrite Hpin; reflexivity).
  rewrite (set_value_forward st1 self value Hd1). cbn [snd].
  rewrite Hpin. cbn [reg_addr bit_index with_direction].
  rewrite set_drivemode_spec, DIGINOUT_PIN_with_io, Hpin.
  cbn [drive_mode with_direction]. rewrite Hdm, Z.eqb_refl. cbn [snd].
  (* the pin's register is not the one the propagation writes *)
  assert (Hports : ports (io st1) (uint16 (reg_addr p)) = ports (io st) (uint16 (reg_addr p))).
  { rewrite Hio. destruct (propagate_dir p); [| reflexivity].
    rewrite set_port_direction_spec. unfold SPP_CONTROL_ADDR.
    apply writeport_ports_other. apply not_eq_sym, uint16_succ_ne. lia. }
  assert (Hl1 : latch (io st1) = latch (io st)).
  { rewrite Hio. destruct (propagate_dir p); reflexivity. }
  eexists. split; [reflexivity |].
  split; [exact Herr |].
  split; [rewrite DIGINOUT_PIN_with_io, Hpin; reflexivity |].
  split.
  - unfold with_io, writeport, readport. cbn [io io_log fst snd].
    rewrite Hports, Hio.
    destruct (propagate_dir p).
    + rewrite set_port_direction_spec. unfold writeport, SPP_CONTROL_ADDR. cbn [io_log].
      rewrite !writes_of_app. cbn [writes_of]. rewrite <- !app_assoc. reflexivity.
    + rewrite !writes_of_app. cbn [writes_of app]. rewrite ?app_nil_r. reflexivity.
  - rewrite get_value_spec; rewrite DIGINOUT_PIN_with_io, Hpin;
      cbn [reg_addr bit_index with_direction]; [| exact Hb].
    unfold with_io; cbn [io]. rewrite writeport_ports_same.
    rewrite readport_latch, Hl1, Hlatch.
    rewrite set_value_byte by (try apply uint8_range; exact Hb).
    rewrite Z.eqb_refl. reflexivity.
Qed.

Lemma switch_to_output_success_witness :
  output_allowed (DIGINOUT_PIN st_data 0) = true
  /\ enum_cast 0 = drive_mode (DIGINOUT_PIN st_data 0)
  /\ 0 <= bit_index (DIGINOUT_PIN st_data 0) < 8
  /\ exists st',
      GPIO_switch_to_output st_data 0 true 0 = (Some Py_None, st')
      /\ pyerr st' = pyerr st_data
      /\ direction (DIGINOUT_PIN st' 0) = PORT_DIR_FORWARD
      /\ fst (DigitalInOut_get_value st' 0) = Some (Py_Bool true).
Proof.
  assert (H1 : output_allowed (DIGINOUT_PIN st_data 0) = true) by reflexivity.
  assert (H2 : enum_cast 0 = drive_mode (DIGINOUT_PIN st_data 0)) by reflexivity.
  assert (H3 : 0 <= bit_index (DIGINOUT_PIN st_data 0) < 8)
    by (change (0 <= 0 < 8); lia).
  assert (H4 : forall old w,
             Z.testbit (latch (io st_data) (uint16 (reg_addr (DIGINOUT_PIN st_data 0)))
                              old w)
                       (bit_index (DIGINOUT_PIN st_data 0))
             = Z.testbit w (bit_index (DIGINOUT_PIN st_data 0)))
    by (intros old w; reflexivity).
  split; [exact H1 |]. split; [exact H2 |]. split; [exact H3 |].
  destruct (switch_to_output_success st_data 0 true 0 H1 H2 H3 H4)
    as (st' & E & Herr & Hdir & _ & Hget).
  exists st'. repeat split; assumption.
Defined.

(** X22. [GPIO_switch_to_input] on a pin that may be an input, with the
    pin's own pull ([None] when that is [PULL_NONE]): it returns [None]
    and raises nothing, the pin is recorded REVERSE, the only write is
    the optional propagation byte [0x00] to the register two above the
    pin's; afterwards a value write and the drive-mode getter raise and
    the pull getter does not. *)
Theorem switch_to_input_success (PULL_NONE : Z) (st : PyState) (self : nat)
                                (pull_arg : option Z) (v : bool) :
  input_allowed (DIGINOUT_PIN st self) = true ->
  match pull_arg with None => PULL_NONE | Some x => enum_cast x end
  = pull (DIGINOUT_PIN st self) ->
  exists st',
    GPIO_switch_to_input PULL_NONE st self pull_arg = (Some Py_None, st')
    /\ pyerr st' = pyerr st
    /\ direction (DIGINOUT_PIN st' self) = PORT_DIR_REVERSE
    /\ writes_of (io_log (io st'))
       = writes_of (io_log (io st))
         ++ (if propagate_dir (DIGINOUT_PIN st self)
             then [(uint16 (reg_addr (DIGINOUT_PIN st self) + 2), 0)] else [])
    /\ fst (DigitalInOut_set_value st' self v) = -1
    /\ fst (DigitalInOut_get_drivemode st' self) = None
    /\ fst (DigitalInOut_get_pull PULL_NONE st' self) <> None.
Proof.
  intros Hal Hpull.
  set (p := DIGINOUT_PIN st self) in *.
  destruct (set_direction_allowed st self INPUT Hal) as (_ & Hio & Hpin & Herr).
  fold p in Hio, Hpin. cbn [propagated_dir recorded_dir] in Hio, Hpin.
  unfold GPIO_switch_to_input.
  destruct (DigitalInOut_set_direction st self (Direction_value INPUT)) as [r1 st1].
  cbn [snd] in Hio, Hpin, Herr.
  unfold DigitalInOut_set_pull. rewrite Hpin.
  cbn [direction pull with_direction].
  change (negb (port_dir_eqb PORT_DIR_REVERSE PORT_DIR_REVERSE)) with false.
  cbv iota. fold p. rewrite Hpull, Z.eqb_refl. cbn [negb].
  exists st1. split; [reflexivity |].
  split; [exact Herr |].
  split; [rewrite Hpin; reflexivity |].
  split.
  - rewrite Hio. destruct (propagate_dir p).
    + rewrite set_port_direction_spec. unfold writeport, SPP_CONTROL_ADDR. cbn [io_log].
      rewrite writes_of_app. reflexivity.
    + rewrite app_nil_r. reflexivity.
  - assert (Hd : direction (DIGINOUT_PIN st1 self) = PORT_DIR_REVERSE)
      by (rewrite Hpin; reflexivity).
    split.
    + unfold DigitalInOut_set_value. rewrite Hd. reflexivity.
    + split.
      * unfold DigitalInOut_get_drivemode. rewrite Hpin. reflexivity.
      * unfold DigitalInOut_get_pull. rewrite Hpin.
        cbn [direction with_direction].
        change (port_dir_eqb PORT_DIR_REVERSE PORT_DIR_FORWARD) with false.
        cbv iota. destruct (_ =? _); cbn [fst]; discriminate.
Qed.

Lemma switch_to_input_success_witness :
  input_allowed (DIGINOUT_PIN st_data 0) = true
  /\ match @None Z with None => 0 | Some x => enum_cast x end
     = pull (DIGINOUT_PIN st_data 0)
  /\ exists st',
      GPIO_switch_to_input 0 st_data 0 None = (Some Py_None, st')
      /\ direction (DIGINOUT_PIN st' 0) = PORT_DIR_REVERSE
      /\ fst (DigitalInOut_set_value st' 0 true) = -1.
Proof.
  assert (H1 : input_allowed (DIGINOUT_PIN st_data 0) = true) by reflexivity.
  assert (H2 : match @None Z with None => 0 | Some x => enum_cast x end
               = pull (DIGINOUT_PIN st_data 0)) by reflexivity.
  split; [exact H1 |]. split; [exact H2 |].
  destruct (switch_to_input_success 0 st_data 0 None true H1 H2)
    as (st' & E & _ & Hdir & _ & Hset & _).
  exists st'. repeat split; assumption.
Defined.

(** X23. Whatever is assigned to [direction] and whether or not the
    assignment is permitted, [DigitalInOut_set_direction] leaves every
    object, every other pin and every field of the pin but [direction]
    as they were, reads no port, and writes at most one byte, to the
    register two above the pin's own: the pin's own register keeps its
    contents. *)
Theorem set_direction_frame (st : PyState) (self : nat) (value : Z) :
  dio_heap (snd (DigitalInOut_set_direction st self value)) = dio_heap st
  /\ (forall q, q <> pin (dio_heap st self) ->
        pin_heap (snd (DigitalInOut_set_direction st self value)) q = pin_heap st q)
  /\ with_direction (DIGINOUT_PIN (snd (DigitalInOut_set_direction st self value)) self)
                    (direction (DIGINOUT_PIN st self))
     = DIGINOUT_PIN st self
  /\ (io_log (io (snd (DigitalInOut_set_direction st self value))) = io_log (io st)
      \/ exists b,
           io_log (io (snd (DigitalInOut_set_direction st self value)))
           = io_log (io st)
             ++ [Outb (uint16 (reg_addr (DIGINOUT_PIN st self) + 2)) b])
  /\ (forall a, a <> uint16 (reg_addr (DIGINOUT_PIN st self) + 2) ->
        ports (io (snd (DigitalInOut_set_direction st self value))) a
        = ports (io st) a)
  /\ ports (io (snd (DigitalInOut_set_direction st self value)))
           (uint16 (reg_addr (DIGINOUT_PIN st self)))
     = ports (io st) (uint16 (reg_addr (DIGINOUT_PIN st self))).
Proof.
  set (p := DIGINOUT_PIN st self).
  assert (Hcases :
            (exists ty msg, snd (DigitalInOut_set_direction st self value)
                            = PyErr_SetString st ty msg)
            \/ (exists d, snd (DigitalInOut_set_direction st self value)
                          = store_pin st (pin (dio_heap st self)) (with_direction p d))
            \/ (exists d d',
                   snd (DigitalInOut_set_direction st self value)
                   = store_pin (with_io st (portio_set_port_direction (io st) (reg_addr p) d'))
                               (pin (dio_heap st self)) (with_direction p d))).
  { unfold DigitalInOut_set_direction. fold p.
    destruct ((c_not (enum_cast value) =? 0) && negb (output_allowed p));
      [left; eexists; eexists; reflexivity |].
    destruct ((c_not (enum_cast value) =? 1) && negb (input_allowed p));
      [left; eexists; eexists; reflexivity |].
    right. destruct (propagate_dir p); [right | left].
    - eexists. eexists. reflexivity.
    - eexists. reflexivity. }
  assert (Hpin : forall s d,
             dio_heap s = dio_heap st -> pin_heap s = pin_heap st ->
             (forall q, q <> pin (dio_heap st self) ->
                pin_heap (store_pin s (pin (dio_heap st self)) (with_direction p d)) q
                = pin_heap st q)
             /\ with_direction
                  (DIGINOUT_PIN (store_pin s (pin (dio_heap st self)) (with_direction p d))
                                self)
                  (direction p) = p).
  { intros s d Hdh Hph. split.
    - intros q Hq. unfold store_pin; cbn [pin_heap].
      destruct (Nat.eqb_spec q (pin (dio_heap st self))); [contradiction |].
      rewrite Hph. reflexivity.
    - unfold DIGINOUT_PIN, store_pin; cbn [pin_heap dio_heap].
      rewrite Hdh, Nat.eqb_refl. apply with_direction_restore. }
  destruct Hcases as [(ty & msg & ->) | [(d & ->) | (d & d' & ->)]].
  - split; [reflexivity |]. split; [reflexivity |].
    split; [rewrite DIGINOUT_PIN_PyErr_SetString; apply with_direction_same |].
    split; [left; reflexivity |]. split; [reflexivity | reflexivity].
  - destruct (Hpin st d eq_refl eq_refl) as [H1 H2].
    split; [reflexivity |]. split; [exact H1 |]. split; [exact H2 |].
    split; [left; reflexivity |]. split; [reflexivity | reflexivity].
  - destruct (Hpin (with_io st (portio_set_port_direction (io st) (reg_addr p) d')) d
                   eq_refl eq_refl) as [H1 H2].
    split; [reflexivity |]. split; [exact H1 |]. split; [exact H2 |].
    unfold store_pin, with_io; cbn [io].
    rewrite set_port_direction_spec. unfold SPP_CONTROL_ADDR.
    split; [right; eexists; reflexivity |].
    split.
    + intros a Ha. apply writeport_ports_other. exact Ha.
    + apply writeport_ports_other. apply not_eq_sym, uint16_succ_ne. lia.
Qed.

(** Witnesses of the round trips. *)
Lemma direction_round_trip_witness :
  fst (DigitalInOut_set_direction st_data 0 (Direction_value OUTPUT)) = 0
  /\ fst (DigitalInOut_get_direction
            (snd (DigitalInOut_set_direction st_data 0 (Direction_value OUTPUT))) 0)
     = Some (Direction_member OUTPUT).
Proof.
  assert (H : fst (DigitalInOut_set_direction st_data 0 (Direction_value OUTPUT)) = 0)
    by reflexivity.
  split; [exact H | exact (direction_round_trip st_data 0 OUTPUT H)].
Defined.

Lemma drive_mode_round_trip_witness :
  0 <= 0 < 4294967296
  /\ direction (DIGINOUT_PIN st_output 0) = PORT_DIR_FORWARD
  /\ fst (DigitalInOut_set_drivemode st_output 0 0) = 0
  /\ fst (DigitalInOut_get_drivemode (snd (DigitalInOut_set_drivemode st_output 0 0)) 0)
     = Some (Py_Enum "parallel64.digitalio" "DriveMode" 0).
Proof.
  assert (H1 : 0 <= 0 < 4294967296) by lia.
  assert (H2 : direction (DIGINOUT_PIN st_output 0) = PORT_DIR_FORWARD) by reflexivity.
  assert (H3 : fst (DigitalInOut_set_drivemode st_output 0 0) = 0) by reflexivity.
  split; [exact H1 |]. split; [exact H2 |]. split; [exact H3 |].
  exact (drive_mode_round_trip st_output 0 0 H1 H2 H3).
Defined.

Lemma pull_none_round_trip_witness :
  fst (DigitalInOut_set_pull 0 st_status 0 None) = 0
  /\ fst (DigitalInOut_get_pull 0 (snd (DigitalInOut_set_pull 0 st_status 0 None)) 0)
     = Some Py_None.
Proof.
  assert (H : fst (DigitalInOut_set_pull 0 st_status 0 None) = 0) by reflexivity.
  split; [exact H | exact (pull_none_round_trip 0 st_status 0 H)].
Defined.
